(** * NeuroGate: behavioural risk engine, physics classifier, login gate
      and audit log, embedded from the Go backend ([go-backend/main.go]) and
      the React front end ([GravityChallenge.tsx], [DynamicLoginGate.tsx],
      [neurogateAPI.ts]).

    Go's [float64] and JavaScript's [number] are IEEE 754 binary64 values with
    round-to-nearest-even arithmetic; both are embedded as Rocq's primitive
    [float], whose operations are the same binary64 operations, each one
    rounded on its own (no fused multiply-add).  Go's [int] and [int64] are
    embedded as [Z] with the 64-bit wrap-around written out where the code
    subtracts.  Calls to [log.Printf] and [console.*] only write diagnostics
    and are left out.

    Field names are the source's, except where two structs of one module
    share a name: [SecurityEvent.Time] is [TimeText], [TelemetryData]'s
    [KeystrokeDynamics] and [Timestamp] are [Dynamics] and [CapturedAt], and
    the request and response structs carry a prefix ([vr_], [rr_], [cr_],
    [cs_]). *)

From Stdlib Require Import ZArith List Bool String Ascii Lia.
From Stdlib Require Import Uint63 Floats DecimalString.
Import ListNotations.

(** Decimal literals denote the nearest binary64 value, as they do in Go and
  in JavaScript. *)
Set Warnings "-inexact-float".

Local Open Scope string_scope.
Local Open Scope list_scope.
Local Open Scope Z_scope.

(* ================================================================== *)
(** * Numeric conventions shared by both languages *)

Module Num.

(** Two's-complement wrap-around of a 64-bit signed integer. *)
Definition wrap64 (z : Z) : Z := (z + 2 ^ 63) mod 2 ^ 64 - 2 ^ 63.

(** Go's conversion [float64(n)] of an [int64] (round to nearest even). *)
Definition float64_of_int (z : Z) : float :=
  if z =? - 2 ^ 63 then (- 0x1p63)%float
  else if z <? 0 then (- PrimFloat.of_uint63 (Uint63.of_Z (- z)))%float
  else PrimFloat.of_uint63 (Uint63.of_Z z).

(** The length of a slice or array as an integer and as a number. *)
Definition len {A} (l : list A) : Z := Z.of_nat (List.length l).
Definition flen {A} (l : list A) : float := float64_of_int (len l).

(** [a > b] on floats, false as soon as one side is NaN. *)
Definition gtb (a b : float) : bool := (b <? a)%float.

End Num.

(* ================================================================== *)
(** * The Go backend: [go-backend/main.go] *)

Module Backend.
Import Num.

(** ** Data structures *)

Record MousePoint := {
  X : float;
  Y : float;
  Time : Z;
  Pressure : option float
}.

Record KeystrokeDynamics := {
  FlightTimes : list float;
  DwellTimes : list float;
  Keys : list string
}.

Record SecurityEvent := {
  ID : string;
  Timestamp : Z;
  UserID : string;
  IP : string;
  TrustScore : float;
  Status : string;
  TimeText : string
}.

Record EventLog := {
  events : list SecurityEvent;
  maxSize : Z
}.

Record TelemetryData := {
  Dynamics : KeystrokeDynamics;
  MousePath : list MousePoint;
  EntropyScore : float;
  SessionDuration : Z;
  CapturedAt : Z
}.

Record VerifyRequest := {
  vr_UserID : string;
  vr_Telemetry : TelemetryData;
  vr_Timestamp : Z
}.

Record RiskResponse := {
  rr_TrustScore : float;
  RequiresChallenge : bool
}.

Record ChallengeRequest := {
  cr_UserID : string;
  Success : bool;
  cr_Timestamp : Z
}.

Record ChallengeResponse := {
  cs_Status : string;
  Message : string
}.

(** ** Risk engine *)

(** [calculateVariance]: population variance, 0 below two samples. *)
Definition calculateVariance (data : list float) : float :=
  if len data <? 2 then 0%float
  else
    let mean := fold_left (fun m val => (m + val)%float) data 0%float in
    let mean := (mean / flen data)%float in
    let variance :=
      fold_left
        (fun v val => let diff := (val - mean)%float in (v + diff * diff)%float)
        data 0%float in
    (variance / flen data)%float.

(** One turn of the loop of [calculateMouseAcceleration] on the three
    points [mousePath[i-2]], [mousePath[i-1]], [mousePath[i]]: [None] when
    the turn is skipped by [continue]. *)
Definition accelMagnitude (point1 point2 point3 : MousePoint) : option float :=
  let timeDelta1 :=
    (float64_of_int (wrap64 (Time point2 - Time point1)) / 1000)%float in
  let timeDelta2 :=
    (float64_of_int (wrap64 (Time point3 - Time point2)) / 1000)%float in
  if (timeDelta1 =? 0)%float || (timeDelta2 =? 0)%float then None
  else
    let vel1X := ((X point2 - X point1) / timeDelta1)%float in
    let vel1Y := ((Y point2 - Y point1) / timeDelta1)%float in
    let vel2X := ((X point3 - X point2) / timeDelta2)%float in
    let vel2Y := ((Y point3 - Y point2) / timeDelta2)%float in
    let accelX := (vel2X - vel1X)%float in
    let accelY := (vel2Y - vel1Y)%float in
    Some (PrimFloat.sqrt (accelX * accelX + accelY * accelY)).

(** The slice [accelerations] built by the loop [for i := 2; i < len; i++]. *)
Fixpoint accelerationsOf (mousePath : list MousePoint) : list float :=
  match mousePath with
  | point1 :: rest =>
      match rest with
      | point2 :: point3 :: _ =>
          match accelMagnitude point1 point2 point3 with
          | Some a => a :: accelerationsOf rest
          | None => accelerationsOf rest
          end
      | _ => []
      end
  | [] => []
  end.

Definition calculateMouseAcceleration (mousePath : list MousePoint) : float :=
  if len mousePath <? 3 then 0%float
  else calculateVariance (accelerationsOf mousePath).

(** [CalculateRisk]: the trust score, threaded through the seven blocks of
    the function in source order. *)
Definition CalculateRisk (telemetry : TelemetryData) : float :=
  let trustScore := 50%float in
  (* entropy score *)
  let trustScore :=
    if (EntropyScore telemetry <? 40)%float then (trustScore - 35)%float
    else if gtb (EntropyScore telemetry) 70 then (trustScore + 25)%float
    else (trustScore + 5)%float in
  (* keystroke flight times *)
  let trustScore :=
    if len (FlightTimes (Dynamics telemetry)) >? 2 then
      let flightVariance := calculateVariance (FlightTimes (Dynamics telemetry)) in
      if (flightVariance <? 100)%float then (trustScore - 30)%float
      else if gtb flightVariance 1000 then (trustScore + 15)%float
      else trustScore
    else trustScore in
  (* keystroke dwell times *)
  let trustScore :=
    if len (DwellTimes (Dynamics telemetry)) >? 2 then
      let dwellVariance := calculateVariance (DwellTimes (Dynamics telemetry)) in
      if (dwellVariance <? 50)%float then (trustScore - 15)%float
      else trustScore
    else trustScore in
  (* session duration *)
  let trustScore :=
    if SessionDuration telemetry <? 2000 then (trustScore - 20)%float
    else if SessionDuration telemetry >? 300000 then (trustScore - 10)%float
    else trustScore in
  (* mouse movement *)
  let trustScore :=
    if len (MousePath telemetry) >? 10 then
      let acceleration := calculateMouseAcceleration (MousePath telemetry) in
      if (acceleration <? 1.0)%float then (trustScore - 25)%float
      else if gtb acceleration 50 then (trustScore + 10)%float
      else trustScore
    else trustScore in
  (* keystroke count *)
  let keystrokeCount := len (Keys (Dynamics telemetry)) in
  let trustScore :=
    if keystrokeCount <? 3 then (trustScore - 15)%float
    else trustScore (* the branch [keystrokeCount > 50] only logs *) in
  (* mouse point count *)
  let mousePointCount := len (MousePath telemetry) in
  let trustScore :=
    if mousePointCount <? 5 then (trustScore - 10)%float
    else if mousePointCount >? 100 then (trustScore + 5)%float
    else trustScore in
  (* clamp *)
  if gtb trustScore 100 then 100%float
  else if (trustScore <? 0)%float then 0%float
  else trustScore.

(** ** Event log *)

(** [NewEventLog]: [make] panics on a negative capacity, so no log with a
    negative [maxSize] is ever built.  It also panics on a capacity larger
    than the runtime can allocate; that bound depends on the platform and
    is left out here, the server asks for 50. *)
Definition NewEventLog (maxSize : Z) : option EventLog :=
  if maxSize <? 0 then None
  else Some {| events := []; maxSize := maxSize |}.

(** [LogEvent]: append, then keep the last [maxSize] events.  The mutex
    only serialises callers; one call is one atomic step. *)
Definition LogEvent (event : SecurityEvent) (el : EventLog) : EventLog :=
  let events1 := events el ++ [event] in
  let events2 :=
    if len events1 >? maxSize el
    then skipn (Z.to_nat (len events1 - maxSize el)) events1
    else events1 in
  {| events := events2; maxSize := maxSize el |}.

(** The zero value that [make([]SecurityEvent, n)] fills the result with. *)
Definition zeroEvent : SecurityEvent :=
  {| ID := ""; Timestamp := 0; UserID := ""; IP := "";
     TrustScore := 0%float; Status := ""; TimeText := "" |}.

(** [result[i] = e] on a slice; an index out of range would panic, it never
    is in [GetEvents]. *)
Fixpoint store {A} (i : nat) (e : A) (result : list A) : list A :=
  match result, i with
  | [], _ => []
  | _ :: tl, O => e :: tl
  | hd :: tl, S j => hd :: store j e tl
  end.

(** [GetEvents]: a fresh slice filled back to front by the loop
    [for i, e := range el.events { result[len-1-i] = e }]. *)
Definition GetEvents (el : EventLog) : list SecurityEvent :=
  let n := List.length (events el) in
  fst (fold_left
         (fun '(result, i) e => (store (n - 1 - i) e result, S i))
         (events el) (repeat zeroEvent n, O)).

(** ** API handlers *)

(** What the gin context and the clock give a handler: the peer address
    and the three readings of [time.Now()]. *)
Record Context := {
  ClientIP : string;
  NowUnixNano : Z;
  NowUnix : Z;
  NowFormatted : string
}.

(** JSON bodies, by the shape they decode to. *)
Inductive Payload :=
| VerifyJSON (req : VerifyRequest)
| ChallengeJSON (req : ChallengeRequest)
| OtherJSON.

(** Responses written with [c.JSON]. *)
Inductive Response :=
| OKRisk (body : RiskResponse)
| OKChallenge (body : ChallengeResponse)
| OKEvents (evs : list SecurityEvent) (count : Z)
| OKHealth (status message : string)
| OKService (service version status : string)
| BadRequest (error : string)
| NotFound.

(** [c.ShouldBindJSON(&req)]: the body must decode to the request type and
    the string field tagged [binding:"required"] must not be empty. *)
Definition bindVerify (body : Payload) : option VerifyRequest :=
  match body with
  | VerifyJSON req => if (vr_UserID req =? "")%string then None else Some req
  | _ => None
  end.

Definition bindChallenge (body : Payload) : option ChallengeRequest :=
  match body with
  | ChallengeJSON req => if (cr_UserID req =? "")%string then None else Some req
  | _ => None
  end.

(** [fmt.Sprintf("%d", n)]. *)
Definition sprintd (n : Z) : string := NilZero.string_of_int (Z.to_int n).

Definition CHALLENGE_THRESHOLD : float := 70.0%float.

Definition VerifyBehaviorHandler
    (c : Context) (body : Payload) (eventLog : EventLog)
  : EventLog * Response :=
  match bindVerify body with
  | None => (eventLog, BadRequest "Invalid request format")
  | Some req =>
      let trustScore := CalculateRisk (vr_Telemetry req) in
      let requiresChallenge := (trustScore <? CHALLENGE_THRESHOLD)%float in
      let status := if requiresChallenge then "challenged" else "success" in
      let eventLog' :=
        LogEvent
          {| ID := (vr_UserID req ++ "-" ++ sprintd (NowUnixNano c))%string;
             Timestamp := NowUnix c;
             UserID := vr_UserID req;
             IP := ClientIP c;
             TrustScore := trustScore;
             Status := status;
             TimeText := NowFormatted c |}
          eventLog in
      (eventLog',
       OKRisk {| rr_TrustScore := trustScore;
                 RequiresChallenge := requiresChallenge |})
  end.

Definition SubmitChallengeHandler
    (c : Context) (body : Payload) (eventLog : EventLog)
  : EventLog * Response :=
  match bindChallenge body with
  | None => (eventLog, BadRequest "Invalid request format")
  | Some req =>
      if Success req then
        (eventLog,
         OKChallenge {| cs_Status := "accepted";
                        Message := "Challenge verified successfully" |})
      else
        (eventLog,
         OKChallenge {| cs_Status := "rejected";
                        Message := "Challenge verification failed" |})
  end.

Definition GetEventsHandler
    (c : Context) (body : Payload) (eventLog : EventLog)
  : EventLog * Response :=
  let evs := GetEvents eventLog in
  (eventLog, OKEvents evs (len evs)).

Definition HealthHandler
    (c : Context) (body : Payload) (eventLog : EventLog)
  : EventLog * Response :=
  (eventLog, OKHealth "online" "NeuroGate Backend is running").

(** ** Routes registered in [main] *)

Inductive Method := GET | POST.

Definition Handler : Type := Context -> Payload -> EventLog -> EventLog * Response.

Definition routes : list (Method * string * Handler) :=
  [ (GET, "/api/v1/health", HealthHandler);
    (POST, "/api/v1/verify", VerifyBehaviorHandler);
    (POST, "/api/v1/challenge", SubmitChallengeHandler);
    (GET, "/api/v1/admin/events", GetEventsHandler);
    (GET, "/", fun _ _ el => (el, OKService "NeuroGate Backend" "1.0.0" "running")) ]%string.

Definition method_eqb (a b : Method) : bool :=
  match a, b with GET, GET | POST, POST => true | _, _ => false end.

Fixpoint lookupRoute (m : Method) (path : string)
    (rs : list (Method * string * Handler)) : option Handler :=
  match rs with
  | [] => None
  | (m', path', h) :: rs' =>
      if method_eqb m m' && (path =? path')%string then Some h
      else lookupRoute m path rs'
  end.

(** The running server: the log starts as [NewEventLog(50)] and each
    request is dispatched to its handler, or answered 404. *)
Definition serve (c : Context) (m : Method) (path : string) (body : Payload)
    (eventLog : EventLog) : EventLog * Response :=
  match lookupRoute m path routes with
  | Some h => h c body eventLog
  | None => (eventLog, NotFound)
  end.

Definition initialLog : EventLog := {| events := []; maxSize := 50 |}.

End Backend.

(* ================================================================== *)
(** * JavaScript numbers: the built-ins the front end calls *)

Module JS.

(** An array index or length as a number. *)
Definition number_of_nat (n : nat) : float := Num.float64_of_int (Z.of_nat n).

(** [Math.max] on two numbers: NaN wins, and [+0] is larger than [-0]. *)
Definition max2 (a b : float) : float :=
  if is_nan a || is_nan b then nan
  else if (a <? b)%float then b
  else if (b <? a)%float then a
  else if get_sign a then b else a.

(** [Math.min] on two numbers: NaN wins, and [-0] is smaller than [+0]. *)
Definition min2 (a b : float) : float :=
  if is_nan a || is_nan b then nan
  else if (a <? b)%float then a
  else if (b <? a)%float then b
  else if get_sign a then a else b.

(** The variadic [Math.max(...args)] and [Math.min(...args)]. *)
Definition Math_max (args : list float) : float := fold_left max2 args neg_infinity.
Definition Math_min (args : list float) : float := fold_left min2 args infinity.

(** [isFinite(v)] on a number. *)
Definition isFinite (v : float) : bool := is_finite v.

(** [xs.reduce((a, b) => a + b, 0)]. *)
Definition sum (xs : list float) : float :=
  fold_left (fun a b => (a + b)%float) xs 0%float.

(** [Math.pow(d, 2)], taken as the correctly rounded square. *)
Definition pow2 (d : float) : float := (d * d)%float.

End JS.

(* ================================================================== *)
(** * The physics classifier: [src/components/GravityChallenge.tsx] *)

Module Gravity.
Import Num JS.

Record MovementPoint := {
  timestamp : float;
  x : float;
  y : float
}.

(** The messages pushed on [reasons]: one constructor per template
    literal, carrying the number the template prints. *)
Inductive Reason :=
| InsufficientSamples (n : nat)
| InstantMovement
| FastInitialMovement (timeDiff : float)
| NaturalOnset (timeDiff : float)
| HighVelocity (maxVelocity : float)
| NaturalVelocity (avgVelocity : float)
| TooLinear (linearity : float)
| SomewhatLinear (linearity : float)
| NaturalVariations (linearity : float)
| AccelerationNoise (accelStdDev : float)
| SomeAccelerationVariation (accelStdDev : float)
| SmoothAcceleration (accelStdDev : float)
| DirectionAdjustments (directionChanges : nat)
| HumanDetected (confidence : float)
| BotSuspected (confidence : float).

Record PhysicsAnalysis := {
  isHuman : bool;
  confidence : float;
  reasons : list Reason;
  velocities : list float;
  accelerations : list float
}.

Definition MIN_MOVEMENT_TIME : float := 50%float.
Definition VELOCITY_THRESHOLD : float := 500%float.
Definition LINEARITY_THRESHOLD : float := 0.95%float.
Definition MIN_SAMPLES : nat := 15.

Definition distance (p1 p2 : MovementPoint) : float :=
  let dx := (x p2 - x p1)%float in
  let dy := (y p2 - y p1)%float in
  PrimFloat.sqrt (dx * dx + dy * dy).

Definition calculateVelocity (p1 p2 : MovementPoint) : float :=
  let timeDiff := (timestamp p2 - timestamp p1)%float in
  if (timeDiff =? 0)%float then infinity
  else (distance p1 p2 / timeDiff)%float.

Fixpoint calculateAccelerations (velocities : list float) : list float :=
  match velocities with
  | v0 :: rest =>
      match rest with
      | v1 :: _ => abs (v1 - v0) :: calculateAccelerations rest
      | [] => []
      end
  | [] => []
  end.

(** [points.map((p, i) => ...)]: each element with its index. *)
Definition withIndex {A} (l : list A) : list (nat * A) :=
  combine (seq 0 (List.length l)) l.

Record RelPoint := { rel_t : float; rel_x : float; rel_y : float }.

Definition dummyRel : RelPoint :=
  {| rel_t := nan; rel_x := nan; rel_y := nan |}.

Definition measureLinearity (points : list MovementPoint) : float :=
  if (List.length points <? 3)%nat then 0%float
  else
    let relPoints :=
      map (fun '(i, p) => {| rel_t := number_of_nat i; rel_x := x p; rel_y := y p |})
          (withIndex points) in
    let length := number_of_nat (List.length relPoints) in
    let meanT := (fold_left (fun s p => (s + rel_t p)%float) relPoints 0 / length)%float in
    let meanX := (fold_left (fun s p => (s + rel_x p)%float) relPoints 0 / length)%float in
    (* at least three points here, so both reads are in range *)
    let firstX := rel_x (hd dummyRel relPoints) in
    let lastX := rel_x (last relPoints dummyRel) in
    let '(ssRes, ssTot) :=
      fold_left
        (fun '(ssRes, ssTot) p =>
           let predicted :=
             (meanX + ((rel_t p - meanT) / (length - 1)) * (lastX - firstX))%float in
           let actual := rel_x p in
           let residual := (actual - predicted)%float in
           ((ssRes + residual * residual)%float,
            (ssTot + (actual - meanX) * (actual - meanX))%float))
        relPoints (0%float, 0%float) in
    if (ssTot =? 0)%float then 1%float
    else
      let rSquared := (1 - ssRes / ssTot)%float in
      Math_max [0%float; Math_min [1%float; rSquared]].

(** The loop of CHECK 2: the finite per-step velocities. *)
Fixpoint finiteVelocities (points : list MovementPoint) : list float :=
  match points with
  | p0 :: rest =>
      match rest with
      | p1 :: _ =>
          let vel := calculateVelocity p0 p1 in
          if isFinite vel then vel :: finiteVelocities rest
          else finiteVelocities rest
      | [] => []
      end
  | [] => []
  end.

(** One turn of the loop of CHECK 5 on [points[i-1]], [points[i]],
    [points[i+1]]: does the direction change at the middle point? *)
Definition directionChanged (p1 p2 p3 : MovementPoint) : bool :=
  let v1x := (x p2 - x p1)%float in
  let v1y := (y p2 - y p1)%float in
  let v2x := (x p3 - x p2)%float in
  let v2y := (y p3 - y p2)%float in
  let len1 := PrimFloat.sqrt (v1x * v1x + v1y * v1y) in
  let len2 := PrimFloat.sqrt (v2x * v2x + v2y * v2y) in
  if gtb len1 0 && gtb len2 0 then
    let dot := ((v1x * v2x + v1y * v2y) / (len1 * len2))%float in
    (dot <? 0.95)%float
  else false.

(** The counter [directionChanges]; it only ever holds small integers,
    which a number represents exactly. *)
Fixpoint countDirectionChanges (points : list MovementPoint) : nat :=
  match points with
  | p1 :: rest =>
      match rest with
      | p2 :: p3 :: _ =>
          ((if directionChanged p1 p2 p3 then 1 else 0)
           + countDirectionChanges rest)%nat
      | _ => O
      end
  | [] => O
  end.

(** Standard deviation of the accelerations, as CHECK 4 computes it. *)
Definition accelStdDevOf (accelerations : list float) : float :=
  let n := number_of_nat (List.length accelerations) in
  let avgAccel := (sum accelerations / n)%float in
  let accelVariance :=
    (fold_left (fun s a => (s + pow2 (a - avgAccel))%float) accelerations 0 / n)%float in
  PrimFloat.sqrt accelVariance.

Definition analyzePhysics (points : list MovementPoint) : PhysicsAnalysis :=
  let reasons : list Reason := [] in
  let confidence := 0.5%float in
  if (List.length points <? MIN_SAMPLES)%nat then
    {| isHuman := false;
       confidence := 0%float;
       reasons := [InsufficientSamples (List.length points)];
       velocities := [];
       accelerations := [] |}
  else
    (* CHECK 1: instant movement *)
    let firstTwo := firstn 2 points in
    let '(confidence, reasons) :=
      match firstTwo with
      | [f0; f1] =>
          let timeDiff := (timestamp f1 - timestamp f0)%float in
          if (timeDiff =? 0)%float then
            ((confidence - 0.3)%float, reasons ++ [InstantMovement])
          else if (timeDiff <? MIN_MOVEMENT_TIME)%float then
            ((confidence - 0.2)%float, reasons ++ [FastInitialMovement timeDiff])
          else
            ((confidence + 0.1)%float, reasons ++ [NaturalOnset timeDiff])
      | _ => (confidence, reasons)
      end in
    (* CHECK 2: velocity *)
    let velocities := finiteVelocities points in
    let maxVelocity := Math_max velocities in
    let avgVelocity := (sum velocities / number_of_nat (List.length velocities))%float in
    let '(confidence, reasons) :=
      if gtb maxVelocity VELOCITY_THRESHOLD then
        ((confidence - 0.25)%float, reasons ++ [HighVelocity maxVelocity])
      else
        ((confidence + 0.1)%float, reasons ++ [NaturalVelocity avgVelocity]) in
    (* CHECK 3: linearity *)
    let linearity := measureLinearity points in
    let '(confidence, reasons) :=
      if gtb linearity LINEARITY_THRESHOLD then
        ((confidence - 0.3)%float, reasons ++ [TooLinear linearity])
      else if gtb linearity 0.7 then
        ((confidence - 0.1)%float, reasons ++ [SomewhatLinear linearity])
      else
        ((confidence + 0.2)%float, reasons ++ [NaturalVariations linearity]) in
    (* CHECK 4: acceleration variance *)
    let accelerations := calculateAccelerations velocities in
    let '(confidence, reasons) :=
      if (0 <? List.length accelerations)%nat then
        let accelStdDev := accelStdDevOf accelerations in
        if gtb accelStdDev 0.05 then
          ((confidence + 0.2)%float, reasons ++ [AccelerationNoise accelStdDev])
        else if gtb accelStdDev 0.01 then
          ((confidence + 0.1)%float, reasons ++ [SomeAccelerationVariation accelStdDev])
        else
          ((confidence - 0.15)%float, reasons ++ [SmoothAcceleration accelStdDev])
      else (confidence, reasons) in
    (* CHECK 5: direction changes *)
    let directionChanges := countDirectionChanges points in
    let '(confidence, reasons) :=
      if gtb (number_of_nat directionChanges)
             (number_of_nat (List.length points) * 0.2)
      then ((confidence + 0.15)%float, reasons ++ [DirectionAdjustments directionChanges])
      else (confidence, reasons) in
    (* final verdict *)
    let isHuman := gtb confidence 0.4 in
    let reasons :=
      if isHuman then reasons ++ [HumanDetected confidence]
      else reasons ++ [BotSuspected confidence] in
    let finalConfidence := Math_max [0%float; Math_min [1%float; confidence]] in
    {| isHuman := isHuman;
       confidence := finalConfidence;
       reasons := reasons;
       velocities := velocities;
       accelerations := accelerations |}.

End Gravity.

(* ================================================================== *)
(** * JavaScript strings, over code units below 256 *)

Module JSString.

(** [WhiteSpace] and [LineTerminator] code units stripped by [trim]. *)
Definition isWhiteSpace (c : ascii) : bool :=
  let n := nat_of_ascii c in
  ((9 <=? n) && (n <=? 13) || (n =? 32) || (n =? 160))%nat.

Fixpoint trimStart (s : string) : string :=
  match s with
  | EmptyString => EmptyString
  | String c s' => if isWhiteSpace c then trimStart s' else s
  end.

Definition reverse (s : string) : string :=
  string_of_list_ascii (rev (list_ascii_of_string s)).

Definition trimEnd (s : string) : string := reverse (trimStart (reverse s)).

Definition trim (s : string) : string := trimEnd (trimStart s).

(** Truthiness of a string: the empty string is falsy. *)
Definition truthy (s : string) : bool :=
  match s with EmptyString => false | _ => true end.

End JSString.

(* ================================================================== *)
(** * The API client and the login gate:
    [src/api/neurogateAPI.ts], [src/components/DynamicLoginGate.tsx] *)

Module Gate.
Import Backend JSString.

(** An exchange with the server: the path and body of a POST go in, the
    answer comes out, and the server's own state [S] is carried along. *)
Definition Transport (S : Type) : Type := string -> Payload -> S -> S * Response.

(** The path part of [baseURL = 'http://localhost:3000/api/v1']. *)
Definition baseURL : string := "/api/v1".

(** axios resolves a request on a 2xx status and rejects it on any other. *)
Definition resolves (r : Response) : bool :=
  match r with
  | BadRequest _ | NotFound => false
  | _ => true
  end.

(** The message of the [Error] the client throws when axios rejects: the
    error bodies of this server carry no [message], so it is axios's own. *)
Definition failureMessage (r : Response) : string :=
  match r with
  | BadRequest _ => "Request failed with status code 400"
  | NotFound => "Request failed with status code 404"
  | _ => "Unknown error"
  end.

(** [response.data] as the gate reads it after [verifyBehavior].  Nothing
    checks the shape of the body.  A body of another shape than
    [RiskResponse] has neither of its fields, and both read as [undefined]:
    [requiresChallenge] is then falsy where the gate tests it, and
    [trustScore], which no handler reads, is not a number. *)
Definition asRiskResponse (r : Response) : RiskResponse :=
  match r with
  | OKRisk body => body
  | _ => {| rr_TrustScore := nan; RequiresChallenge := false |}
  end.

(** [response.data] as the gate reads it after [submitChallenge]: the
    fields [status] and [message] of whatever body came.  A field the body
    lacks reads as [undefined], which the gate cannot tell from the empty
    string: it compares [status] with ['accepted'] and tests [message] for
    truthiness. *)
Definition asChallengeResponse (r : Response) : ChallengeResponse :=
  match r with
  | OKChallenge body => body
  | OKHealth status message => {| cs_Status := status; Message := message |}
  | OKService _ _ status => {| cs_Status := status; Message := "" |}
  | _ => {| cs_Status := ""; Message := "" |}
  end.

(** [verifyBehavior]: the telemetry is sent without its own timestamp,
    which travels as the request's [timestamp].  A 2xx answer resolves with
    its body, unchecked; anything else is thrown (right injection). *)
Definition verifyBehavior {S} (post : Transport S)
    (userId : string) (data : TelemetryData) (srv : S)
  : S * (RiskResponse + string) :=
  let body :=
    VerifyJSON
      {| vr_UserID := userId;
         vr_Telemetry :=
           {| Dynamics := Dynamics data;
              MousePath := MousePath data;
              EntropyScore := EntropyScore data;
              SessionDuration := SessionDuration data;
              CapturedAt := 0 |};
         vr_Timestamp := CapturedAt data |} in
  let '(srv', resp) := post (baseURL ++ "/verify")%string body srv in
  (srv', if resolves resp then inl (asRiskResponse resp)
         else inr (failureMessage resp)).

(** [submitChallenge]; [now] is the reading of [Date.now()].  Here too a
    2xx answer resolves with its body, unchecked. *)
Definition submitChallenge {S} (post : Transport S) (now : Z)
    (userId : string) (success : bool) (srv : S)
  : S * (ChallengeResponse + string) :=
  let body :=
    ChallengeJSON
      {| cr_UserID := userId; Success := success; cr_Timestamp := now |} in
  let '(srv', resp) := post (baseURL ++ "/challenge/submit")%string body srv in
  (srv', if resolves resp then inl (asChallengeResponse resp)
         else inr (failureMessage resp)).

Inductive LoginStep := LOGIN | CHALLENGE | SUCCESS | ERROR.

(** The component's state hooks and refs. *)
Record GateState := {
  username : string;
  password : string;
  otp : string;
  step : LoginStep;
  loading : bool;
  error : option string;
  riskResponse : option RiskResponse;
  telemetryRef : option TelemetryData;
  userIdRef : string
}.

Definition initialState : GateState :=
  {| username := ""; password := ""; otp := ""; step := LOGIN;
     loading := false; error := None; riskResponse := None;
     telemetryRef := None; userIdRef := "" |}.

Definition setError (e : option string) (st : GateState) : GateState :=
  {| username := username st; password := password st; otp := otp st;
     step := step st; loading := loading st; error := e;
     riskResponse := riskResponse st; telemetryRef := telemetryRef st;
     userIdRef := userIdRef st |}.

Definition setLoading (b : bool) (st : GateState) : GateState :=
  {| username := username st; password := password st; otp := otp st;
     step := step st; loading := b; error := error st;
     riskResponse := riskResponse st; telemetryRef := telemetryRef st;
     userIdRef := userIdRef st |}.

Definition setStep (s : LoginStep) (st : GateState) : GateState :=
  {| username := username st; password := password st; otp := otp st;
     step := s; loading := loading st; error := error st;
     riskResponse := riskResponse st; telemetryRef := telemetryRef st;
     userIdRef := userIdRef st |}.

Definition setRiskResponse (r : option RiskResponse) (st : GateState) : GateState :=
  {| username := username st; password := password st; otp := otp st;
     step := step st; loading := loading st; error := error st;
     riskResponse := r; telemetryRef := telemetryRef st;
     userIdRef := userIdRef st |}.

Definition setRefs (t : option TelemetryData) (u : string) (st : GateState) : GateState :=
  {| username := username st; password := password st; otp := otp st;
     step := step st; loading := loading st; error := error st;
     riskResponse := riskResponse st; telemetryRef := t; userIdRef := u |}.

(** [handleLoginSubmit]; [telemetry] is what [getTelemetry()] returns. *)
Definition handleLoginSubmit {S} (post : Transport S)
    (telemetry : TelemetryData) (st : GateState) (srv : S) : GateState * S :=
  let st := setLoading true (setError None st) in
  if negb (truthy (trim (username st))) || negb (truthy (trim (password st))) then
    (setLoading false (setError (Some "Username and password are required") st), srv)
  else
    let st := setRefs (Some telemetry) (username st) st in
    let '(srv', result) := verifyBehavior post (username st) telemetry srv in
    match result with
    | inl response =>
        let st := setRiskResponse (Some response) st in
        let st :=
          if negb (RequiresChallenge response) then setStep SUCCESS st
          else setStep CHALLENGE st in
        (setLoading false st, srv')
    | inr errorMessage =>
        (setLoading false (setStep ERROR (setError (Some errorMessage) st)), srv')
    end.

(** [handleChallengeSubmit]; the call it makes is
    [submitChallenge(userIdRef.current, true)]. *)
Definition handleChallengeSubmit {S} (post : Transport S) (now : Z)
    (st : GateState) (srv : S) : GateState * S :=
  let st := setLoading true (setError None st) in
  if negb (truthy (trim (otp st))) then
    (setLoading false (setError (Some "OTP is required") st), srv)
  else if (String.length (otp st) <? 4)%nat then
    (setLoading false (setError (Some "OTP must be at least 4 characters") st), srv)
  else
    let '(srv', result) := submitChallenge post now (userIdRef st) true srv in
    match result with
    | inl challengeResponse =>
        if (cs_Status challengeResponse =? "accepted")%string then
          (setLoading false (setStep SUCCESS st), srv')
        else
          let msg :=
            if truthy (Message challengeResponse) then Message challengeResponse
            else "OTP verification failed" in
          (setLoading false (setStep ERROR (setError (Some msg) st)), srv')
    | inr errorMessage =>
        (setLoading false (setStep ERROR (setError (Some errorMessage) st)), srv')
    end.

(** [handleReset]. *)
Definition handleReset (st : GateState) : GateState := initialState.

Definition isTerminal (s : LoginStep) : bool :=
  match s with SUCCESS | ERROR => true | _ => false end.

End Gate.

(* ================================================================== *)
(** * The session: the gate talking to the backend *)

Module Session.
Import Backend Gate.

Inductive Action :=
| SubmitLogin (telemetry : TelemetryData)
| SubmitChallenge (now : Z)
| Reset.

(** The gate's requests reach the server as POSTs. *)
Definition wire (c : Context) : Transport EventLog :=
  fun path body eventLog => serve c POST path body eventLog.

Definition advance (c : Context) (a : Action) (s : GateState * EventLog)
  : GateState * EventLog :=
  let '(st, eventLog) := s in
  match a with
  | SubmitLogin telemetry => handleLoginSubmit (wire c) telemetry st eventLog
  | SubmitChallenge now => handleChallengeSubmit (wire c) now st eventLog
  | Reset => (handleReset st, eventLog)
  end.

End Session.

(* ================================================================== *)
(** * [Math.round] *)

Module JSRound.

(** [Math.round(v)]: the integer closest to [v], ties towards +infinity;
    NaN, the infinities, the zeros and integral values are returned as they
    are, and a result of zero keeps the sign of [v].  The value of a finite
    number is read off its mantissa and exponent, so the rounding is exact. *)
Definition Math_round (v : float) : float :=
  match Prim2SF v with
  | SpecFloat.S754_finite s m e =>
      if (0 <=? e)%Z then v
      else
        let scaled := if s then Z.neg m else Z.pos m in
        let n := (2 * scaled + 2 ^ (- e)) / 2 ^ (1 - e) in
        if (n =? 0)%Z then (if s then neg_zero else zero)
        else Num.float64_of_int n
  | _ => v
  end.

End JSRound.

(* ================================================================== *)
(** * The dashboard's client: [src/api/adminAPI.ts] *)

Module Admin.
Import Num JS JSRound Backend.

Record DashboardStats := {
  totalLogins : nat;
  averageTrustScore : float;
  threatsBlocked : nat;
  successRate : float
}.

Definition isThreat (e : SecurityEvent) : bool :=
  (Status e =? "blocked")%string || (Status e =? "challenged")%string.

Definition isSuccess (e : SecurityEvent) : bool :=
  (Status e =? "success")%string.

(** [calculateStats]. *)
Definition calculateStats (events : list SecurityEvent) : DashboardStats :=
  if (List.length events =? 0)%nat then
    {| totalLogins := 0; averageTrustScore := 0%float;
       threatsBlocked := 0; successRate := 0%float |}
  else
    let totalLogins := List.length events in
    let threatsBlocked := List.length (filter isThreat events) in
    let successCount := List.length (filter isSuccess events) in
    let averageTrustScore :=
      (fold_left (fun sum e => (sum + TrustScore e)%float) events 0
       / number_of_nat totalLogins)%float in
    let successRate :=
      (number_of_nat successCount / number_of_nat totalLogins * 100)%float in
    {| totalLogins := totalLogins;
       averageTrustScore := (Math_round (averageTrustScore * 100) / 100)%float;
       threatsBlocked := threatsBlocked;
       successRate := (Math_round (successRate * 100) / 100)%float |}.

(** [a >= b] on numbers. *)
Definition geb (a b : float) : bool := (b <=? a)%float.

(** [getStatusColor]. *)
Definition getStatusColor (trustScore : float) : string :=
  if geb trustScore 70 then "#4CAF50"
  else if geb trustScore 40 then "#FFC107"
  else "#F44336".

(** [getStatusLabel]. *)
Definition getStatusLabel (trustScore : float) : string :=
  if geb trustScore 70 then "SAFE"
  else if geb trustScore 40 then "CAUTION"
  else "THREAT".

End Admin.

(* ================================================================== *)
(** * The slider component: the handlers of [GravityChallenge] *)

Module Slider.
Import Num JS Gravity.

Definition SLIDER_WIDTH : float := 300%float.

Inductive Status := idle | success | fail.

(** The texts given to [setMessage], one constructor per text; the two
    verdict texts carry the confidence they print. *)
Inductive Message :=
| SlideToVerify
| AnalyzingMovement
| KeepMoving
| AlmostThere
| AnalyzingPhysics
| HumanVerified (confidence : float)
| BotDetected (confidence : float).

(** The state hooks and the history ref.  The animated handle position is
    display only and is left out. *)
Record State := {
  sliderValue : float;
  status : Status;
  message : Message;
  isAnalyzing : bool;
  movementHistory : list MovementPoint
}.

Definition initial : State :=
  {| sliderValue := 0%float; status := idle; message := SlideToVerify;
     isAnalyzing := false; movementHistory := [] |}.

Definition status_eqb (a b : Status) : bool :=
  match a, b with
  | idle, idle | success, success | fail, fail => true
  | _, _ => false
  end.

(** A mouse event, with the reading of [Date.now()] when it is handled. *)
Record MouseEvent := { clientX : float; clientY : float; now : float }.

(** [handleMouseMove]; [rect] is the slider's bounding rectangle (left and
    top), [None] while [sliderRef.current] is null. *)
Definition handleMouseMove (rect : option (float * float)) (e : MouseEvent)
    (st : State) : State :=
  match rect with
  | Some (rectLeft, rectTop) =>
      if status_eqb (status st) idle then
        let x := (clientX e - rectLeft)%float in
        let y := (clientY e - rectTop)%float in
        let history := movementHistory st ++ [{| timestamp := now e; x := x; y := y |}] in
        let history :=
          if (100 <? List.length history)%nat then tl history else history in
        let percent := Math_max [0%float; Math_min [100%float; (x / SLIDER_WIDTH * 100)%float]] in
        let message := message st in
        let message := if gtb percent 20 then AnalyzingMovement else message in
        let message := if gtb percent 50 then KeepMoving else message in
        let message := if gtb percent 80 then AlmostThere else message in
        {| sliderValue := percent; status := status st; message := message;
           isAnalyzing := isAnalyzing st; movementHistory := history |}
      else st
  | None => st
  end.

(** [handleMouseLeave]. *)
Definition handleMouseLeave (st : State) : State :=
  if status_eqb (status st) idle && (sliderValue st <? 90)%float then
    {| sliderValue := 0%float; status := status st; message := SlideToVerify;
       isAnalyzing := isAnalyzing st; movementHistory := movementHistory st |}
  else st.

(** What [setTimeout] is handed in [handleComplete]. *)
Inductive Timer :=
| SuccessTimer (delayMs : Z) (proof : string)
| FailTimer (delayMs : Z).

(** The component's two callbacks. *)
Inductive Callback := onSuccess (proof : string) | onFail.

(** Whether the text of a reason holds a code unit above 255.  The
    templates of CHECK 2 to CHECK 5 and the two verdict templates begin
    with such characters (the first is U+201A) or contain one; those of
    CHECK 1 and of the sample-count guard are ASCII, and so is every
    number a template prints. *)
Definition hasCodeUnitAbove255 (r : Reason) : bool :=
  match r with
  | InsufficientSamples _ | InstantMovement
  | FastInitialMovement _ | NaturalOnset _ => false
  | HighVelocity _ | NaturalVelocity _
  | TooLinear _ | SomewhatLinear _ | NaturalVariations _
  | AccelerationNoise _ | SomeAccelerationVariation _ | SmoothAcceleration _
  | DirectionAdjustments _
  | HumanDetected _ | BotSuspected _ => true
  end.

(** [generatePhysicsProof]: the payload quotes the last reason,
    [JSON.stringify] leaves its characters as they are, and [btoa] throws
    on a string with a code unit above 255 ([None]).  [encode] is the
    token text built from the clock, [JSON.stringify] and [btoa] when
    [btoa] accepts its argument; it is taken as given. *)
Definition generatePhysicsProof (encode : PhysicsAnalysis -> string)
    (analysis : PhysicsAnalysis) : option string :=
  match nth_error (reasons analysis) (List.length (reasons analysis) - 1) with
  | Some reason =>
      if hasCodeUnitAbove255 reason then None else Some (encode analysis)
  | None => Some (encode analysis)
  end.

(** [handleComplete], up to the end of its body: the state it leaves and
    the timer it has set.  When [generatePhysicsProof] throws, the body is
    left there: the state is as the first two setters made it, no timer is
    set and [setIsAnalyzing(false)] is not reached. *)
Definition handleComplete (encode : PhysicsAnalysis -> string)
    (st : State) : State * option Timer :=
  if (sliderValue st <? 90)%float then (st, None)
  else
    let analysis := analyzePhysics (movementHistory st) in
    if isHuman analysis then
      match generatePhysicsProof encode analysis with
      | Some proof =>
          ({| sliderValue := sliderValue st; status := success;
              message := HumanVerified (confidence analysis);
              isAnalyzing := false; movementHistory := movementHistory st |},
           Some (SuccessTimer 500 proof))
      | None =>
          ({| sliderValue := sliderValue st; status := status st;
              message := AnalyzingPhysics;
              isAnalyzing := true; movementHistory := movementHistory st |},
           None)
      end
    else
      ({| sliderValue := sliderValue st; status := fail;
          message := BotDetected (confidence analysis);
          isAnalyzing := false; movementHistory := movementHistory st |},
       Some (FailTimer 1500)).

(** The timer firing: the callback it makes and the state it leaves. *)
Definition fire (t : Timer) (st : State) : State * Callback :=
  match t with
  | SuccessTimer _ proof => (st, onSuccess proof)
  | FailTimer _ =>
      ({| sliderValue := 0%float; status := idle; message := SlideToVerify;
          isAnalyzing := isAnalyzing st; movementHistory := [] |},
       onFail)
  end.

(** The effect that starts the analysis once the slider has passed 90. *)
Definition completionEffect (encode : PhysicsAnalysis -> string)
    (st : State) : State * option Timer :=
  if gtb (sliderValue st) 90 && status_eqb (status st) idle && negb (isAnalyzing st)
  then handleComplete encode st
  else (st, None).

End Slider.

(* ================================================================== *)
(** * The statistics the specification names, written from its wording

    These definitions do not call the code.  Sums run from left to right
    and every operation is rounded on its own, so that a value can be
    compared bit for bit with the one the code computes. *)

Module Stats.
Import Num.

(** Sum of a list of numbers. *)
Definition total (values : list float) : float :=
  fold_left (fun acc v => (acc + v)%float) values 0%float.

(** Arithmetic mean. *)
Definition mean (values : list float) : float :=
  (total values / flen values)%float.

(** Population variance: the mean of the squared deviations from the mean. *)
Definition variance (values : list float) : float :=
  let m := mean values in
  (total (map (fun v => ((v - m) * (v - m))%float) values) / flen values)%float.

(** Population standard deviation. *)
Definition standardDeviation (values : list float) : float :=
  PrimFloat.sqrt (variance values).

(** The consecutive pairs of a sequence: its steps. *)
Fixpoint steps {A} (samples : list A) : list (A * A) :=
  match samples with
  | a :: rest =>
      match rest with
      | b :: _ => (a, b) :: steps rest
      | [] => []
      end
  | [] => []
  end.

(** The consecutive triples of a sequence. *)
Fixpoint triples {A} (samples : list A) : list (A * A * A) :=
  match samples with
  | a :: rest =>
      match rest with
      | b :: c :: _ => (a, b, c) :: triples rest
      | _ => []
      end
  | [] => []
  end.

(** Euclidean length of a vector. *)
Definition norm (v : float * float) : float :=
  PrimFloat.sqrt (fst v * fst v + snd v * snd v).

(** Difference and dot product of two vectors. *)
Definition minus (v w : float * float) : float * float :=
  ((fst v - fst w)%float, (snd v - snd w)%float).

Definition dot (v w : float * float) : float :=
  (fst v * fst w + snd v * snd w)%float.

End Stats.

(* ================================================================== *)
(** * The risk scorer's table, written from the specification's wording *)

Module Spec.
Import Num Backend Stats.

(** ** Pointer acceleration: seconds-based triple differences *)

(** The time a step takes, in seconds.  Timestamps are 64-bit integers of
    milliseconds, and so is their difference. *)
Definition secondsBetween (p q : MousePoint) : float :=
  (float64_of_int (wrap64 (Time q - Time p)) / 1000)%float.

(** The same with the step floored to 1 ms, the way the entropy
    estimator's method is described. *)
Definition flooredSecondsBetween (p q : MousePoint) : float :=
  (float64_of_int (Z.max 1 (wrap64 (Time q - Time p))) / 1000)%float.

(** Discrete velocity over a step: displacement over time. *)
Definition velocity (seconds : MousePoint -> MousePoint -> float)
    (p q : MousePoint) : float * float :=
  (((X q - X p) / seconds p q)%float, ((Y q - Y p) / seconds p q)%float).

(** Acceleration magnitude of a triple: the length of the difference of
    its two velocities. *)
Definition accelerationMagnitude (seconds : MousePoint -> MousePoint -> float)
    (t : MousePoint * MousePoint * MousePoint) : float :=
  let '(p1, p2, p3) := t in
  norm (minus (velocity seconds p2 p3) (velocity seconds p1 p2)).

(** Pointer acceleration variance as the table words it: the variance of
    the acceleration magnitudes of all consecutive triples. *)
Definition statedAccelerationVariance (path : list MousePoint) : float :=
  variance (map (accelerationMagnitude secondsBetween) (triples path)).

(** The same by the method of the entropy estimator, to which the table
    refers: every time step floored to 1 ms. *)
Definition flooredAccelerationVariance (path : list MousePoint) : float :=
  variance (map (accelerationMagnitude flooredSecondsBetween) (triples path)).

(** Pointer acceleration variance, amended: a triple with a time step of
    zero seconds is left out, and fewer than two magnitudes have
    variance 0. *)
Definition hasZeroStep (t : MousePoint * MousePoint * MousePoint) : bool :=
  let '(p1, p2, p3) := t in
  (secondsBetween p1 p2 =? 0)%float || (secondsBetween p2 p3 =? 0)%float.

Definition timedTriples (path : list MousePoint)
  : list (MousePoint * MousePoint * MousePoint) :=
  filter (fun t => negb (hasZeroStep t)) (triples path).

Definition pointerAccelerationVariance (path : list MousePoint) : float :=
  let magnitudes := map (accelerationMagnitude secondsBetween) (timedTriples path) in
  if len magnitudes <? 2 then 0%float else variance magnitudes.

(** No time step of the path is zero seconds long. *)
Definition noZeroStep (path : list MousePoint) : bool :=
  forallb (fun t => negb (hasZeroStep t)) (triples path).

(** ** Baseline, one adjustment per factor, clamp *)

Definition baseline : Z := 50.

(** Entropy: below 40, from 40 to 70, above 70. *)
Definition entropyAdjustment (entropy : float) : Z :=
  if (entropy <? 40)%float then -35
  else if (70 <? entropy)%float then 25
  else if (40 <=? entropy)%float && (entropy <=? 70)%float then 5
  else 0.

(** Flight-time variance, with at least three samples. *)
Definition flightAdjustment (samples : Z) (flightVariance : float) : Z :=
  if 3 <=? samples then
    if (flightVariance <? 100)%float then -30
    else if (1000 <? flightVariance)%float then 15
    else 0
  else 0.

(** Dwell-time variance, with at least three samples. *)
Definition dwellAdjustment (samples : Z) (dwellVariance : float) : Z :=
  if 3 <=? samples then
    if (dwellVariance <? 50)%float then -15 else 0
  else 0.

(** Session duration in milliseconds. *)
Definition sessionAdjustment (durationMs : Z) : Z :=
  if durationMs <? 2000 then -20
  else if 300000 <? durationMs then -10
  else 0.

(** Pointer acceleration variance, with more than ten samples. *)
Definition pointerAccelerationAdjustment (samples : Z) (accelerationVariance : float) : Z :=
  if 10 <? samples then
    if (accelerationVariance <? 1.0)%float then -25
    else if (50 <? accelerationVariance)%float then 10
    else 0
  else 0.

(** Keystroke count. *)
Definition keystrokeCountAdjustment (keys : Z) : Z :=
  if keys <? 3 then -15 else 0.

(** Pointer sample count. *)
Definition pointerCountAdjustment (samples : Z) : Z :=
  if samples <? 5 then -10
  else if 100 <? samples then 5
  else 0.

(** The rows of the table for a snapshot, given the three variances. *)
Definition adjustmentsFor
    (flightVariance dwellVariance accelerationVariance : float)
    (s : TelemetryData) : list Z :=
  [ entropyAdjustment (EntropyScore s);
    flightAdjustment (len (FlightTimes (Dynamics s))) flightVariance;
    dwellAdjustment (len (DwellTimes (Dynamics s))) dwellVariance;
    sessionAdjustment (SessionDuration s);
    pointerAccelerationAdjustment (len (MousePath s)) accelerationVariance;
    keystrokeCountAdjustment (len (Keys (Dynamics s)));
    pointerCountAdjustment (len (MousePath s)) ].

Definition clamp (lo hi v : Z) : Z := Z.max lo (Z.min hi v).

(** Baseline plus the rows that apply, clamped, as an exact integer. *)
Definition scoreFor
    (flightVariance dwellVariance accelerationVariance : float)
    (s : TelemetryData) : Z :=
  clamp 0 100
    (fold_left Z.add
       (adjustmentsFor flightVariance dwellVariance accelerationVariance s)
       baseline).

(** The rows and the trust score of the table, amended. *)
Definition adjustments (s : TelemetryData) : list Z :=
  adjustmentsFor (variance (FlightTimes (Dynamics s)))
    (variance (DwellTimes (Dynamics s)))
    (pointerAccelerationVariance (MousePath s)) s.

Definition scoreTelemetry (s : TelemetryData) : Z :=
  scoreFor (variance (FlightTimes (Dynamics s)))
    (variance (DwellTimes (Dynamics s)))
    (pointerAccelerationVariance (MousePath s)) s.

(** The trust score of the table as stated: over all triples. *)
Definition statedScore (s : TelemetryData) : Z :=
  scoreFor (variance (FlightTimes (Dynamics s)))
    (variance (DwellTimes (Dynamics s)))
    (statedAccelerationVariance (MousePath s)) s.

(** The same with time steps floored to 1 ms. *)
Definition flooredScore (s : TelemetryData) : Z :=
  scoreFor (variance (FlightTimes (Dynamics s)))
    (variance (DwellTimes (Dynamics s)))
    (flooredAccelerationVariance (MousePath s)) s.

End Spec.

(* ================================================================== *)
(** * The classifier's table, written from the specification's wording *)

Module PhysicsSpec.
Import Num JS Gravity Stats.

(** ** The five features the checks read

    None of them calls the classifier's code; [Math.max], [Math.min],
    [Math.abs] and the square root are the platform's. *)

(** Time gap between the first two samples. *)
Definition firstGap (trace : list MovementPoint) : float :=
  match trace with
  | p0 :: p1 :: _ => (timestamp p1 - timestamp p0)%float
  | _ => nan
  end.

(** Velocity over a step: the distance covered over the time taken. *)
Definition displacement (p q : MovementPoint) : float * float :=
  ((x q - x p)%float, (y q - y p)%float).

Definition stepVelocity (step : MovementPoint * MovementPoint) : float :=
  let '(p, q) := step in
  (norm (displacement p q) / (timestamp q - timestamp p))%float.

(** The finite per-step velocities, in order, and the largest of them. *)
Definition finiteStepVelocities (trace : list MovementPoint) : list float :=
  filter is_finite (map stepVelocity (steps trace)).

Definition maxFiniteVelocity (trace : list MovementPoint) : float :=
  Math_max (finiteStepVelocities trace).

(** Accelerations: absolute differences of consecutive finite velocities. *)
Definition accelerationsOfTrace (trace : list MovementPoint) : list float :=
  map (fun '(v, w) => abs (w - v)) (steps (finiteStepVelocities trace)).

(** Standard deviation of the accelerations. *)
Definition accelerationDeviation (trace : list MovementPoint) : float :=
  standardDeviation (accelerationsOfTrace trace).

(** Linearity, R-squared style: the x positions are fitted, along the
    sequence of samples, by the straight line through their mean point
    that rises from the first x to the last; the result is
    [1 - SSres / SStot] clamped to [0,1], and 1 when [SStot] is 0. *)
Definition linearity (trace : list MovementPoint) : float :=
  let xs := map x trace in
  let positions := map number_of_nat (seq 0 (List.length xs)) in
  let n := number_of_nat (List.length xs) in
  let meanPosition := (total positions / n)%float in
  let meanX := (total xs / n)%float in
  let rise := (last xs nan - hd nan xs)%float in
  let fitted := fun position =>
    (meanX + ((position - meanPosition) / (n - 1)) * rise)%float in
  let ssRes :=
    total (map (fun '(position, v) =>
                  ((v - fitted position) * (v - fitted position))%float)
               (combine positions xs)) in
  let ssTot := total (map (fun v => ((v - meanX) * (v - meanX))%float) xs) in
  if (ssTot =? 0)%float then 1%float
  else Math_max [0%float; Math_min [1%float; (1 - ssRes / ssTot)%float]].

(** A change of direction at the middle sample of a triple: both
    displacements have a length above 0 and the cosine of the angle
    between them is below 0.95. *)
Definition turns (t : MovementPoint * MovementPoint * MovementPoint) : bool :=
  let '(p1, p2, p3) := t in
  let incoming := displacement p1 p2 in
  let outgoing := displacement p2 p3 in
  (0 <? norm incoming)%float && (0 <? norm outgoing)%float
  && (dot incoming outgoing / (norm incoming * norm outgoing) <? 0.95)%float.

Definition directionChanges (trace : list MovementPoint) : nat :=
  List.length (filter turns (triples trace)).

(** Signed adjustments, in hundredths. *)

Definition onsetAdjustment (gap : float) : Z :=
  if (gap =? 0)%float then -30
  else if (gap <? 50)%float then -20
  else 10.

Definition velocityAdjustment (maxVelocity : float) : Z :=
  if (500 <? maxVelocity)%float then -25 else 10.

Definition linearityAdjustment (linearity : float) : Z :=
  if (0.95 <? linearity)%float then -30
  else if (0.7 <? linearity)%float then -10
  else 20.

Definition accelerationAdjustment (deviation : float) : Z :=
  if (0.05 <? deviation)%float then 20
  else if (0.01 <? deviation)%float then 10
  else -15.

(** More direction changes than 20% of the samples: +0.15, else nothing. *)
Definition directionAdjustment (changes samples : nat) : list Z :=
  if (number_of_nat samples * 0.2 <? number_of_nat changes)%float then [15] else [].

(** The adjustments as the claim lists them: all of the first four, then
    the fifth when it applies. *)
Definition statedAdjustments (trace : list MovementPoint) : list Z :=
  [ onsetAdjustment (firstGap trace);
    velocityAdjustment (maxFiniteVelocity trace);
    linearityAdjustment (linearity trace);
    accelerationAdjustment (accelerationDeviation trace) ]
  ++ directionAdjustment (directionChanges trace) (List.length trace).

(** The same, with the acceleration check left out when the trace yields
    no acceleration at all (fewer than two finite velocities). *)
Definition guardedAdjustments (trace : list MovementPoint) : list Z :=
  [ onsetAdjustment (firstGap trace);
    velocityAdjustment (maxFiniteVelocity trace);
    linearityAdjustment (linearity trace) ]
  ++ match accelerationsOfTrace trace with
     | [] => []
     | _ :: _ => [accelerationAdjustment (accelerationDeviation trace)]
     end
  ++ directionAdjustment (directionChanges trace) (List.length trace).

(** A number of hundredths as a number. *)
Definition hundredths (h : Z) : float := (float64_of_int h / 100)%float.

(** Confidence: start at 0.5, add the adjustments in order, clamp to [0,1]. *)
Definition clampUnit (c : float) : float :=
  if (c <? 0)%float then 0%float
  else if (1 <? c)%float then 1%float
  else c.

Definition confidenceOf (adjustments : list Z) : float :=
  clampUnit (fold_left (fun c h => (c + hundredths h)%float) adjustments 0.5%float).

(** The same sum in exact arithmetic, in hundredths. *)
Definition exactHundredths (adjustments : list Z) : Z :=
  fold_left Z.add adjustments 50.

End PhysicsSpec.

(* ================================================================== *)
(** * The audit log in use *)

Module Audit.
Import Backend.

(** [record(e)] and [list()] of the interface are [LogEvent] and
    [GetEvents]; the log of the running server has capacity 50. *)
Definition record_all (es : list SecurityEvent) (el : EventLog) : EventLog :=
  fold_left (fun log e => LogEvent e log) es el.

(** The [n] most recently inserted events, most recent first. *)
Definition mostRecentFirst (n : nat) (inserted : list SecurityEvent)
  : list SecurityEvent :=
  firstn n (rev inserted).

End Audit.

(* ================================================================== *)
(** * Observing what the gate sends *)

Module Observe.
Import Backend Gate.

(** A transport that keeps the requests it is handed, in order, and gives
    every one of them the same answer. *)
Definition recording (answer : Response) : Transport (list (string * Payload)) :=
  fun path body sent => (sent ++ [(path, body)], answer).

(** A transport that hands the body straight to the challenge handler,
    whatever the path. *)
Definition delivered (c : Context) : Transport EventLog :=
  fun _ body eventLog => SubmitChallengeHandler c body eventLog.

(** The state after the user has typed a code into the challenge form. *)
Definition withOtp (code : string) (st : GateState) : GateState :=
  {| username := username st; password := password st; otp := code;
     step := step st; loading := loading st; error := error st;
     riskResponse := riskResponse st; telemetryRef := telemetryRef st;
     userIdRef := userIdRef st |}.

(** The two answers of the challenge handler. *)
Definition accepted : ChallengeResponse :=
  {| cs_Status := "accepted"; Message := "Challenge verified successfully" |}.
Definition rejected : ChallengeResponse :=
  {| cs_Status := "rejected"; Message := "Challenge verification failed" |}.

End Observe.

(* ================================================================== *)
(** * Concrete inputs used by the examples *)

Module Samples.
Import Num Backend.

Definition clock : Context :=
  {| ClientIP := "127.0.0.1"; NowUnixNano := 1763821845000000000;
     NowUnix := 1763821845; NowFormatted := "2025-11-22 14:30:45" |}.

Definition event (i : nat) : SecurityEvent :=
  {| ID := "user-" ++ sprintd (Z.of_nat i); Timestamp := Z.of_nat i;
     UserID := "user"; IP := "127.0.0.1"; TrustScore := 80%float;
     Status := "success"; TimeText := "2025-11-22 14:30:45" |}%string.

(** Fifty-one distinct events, numbered in insertion order. *)
Definition events51 : list SecurityEvent := map event (seq 0 51).

Definition point (t : Z) (px py : Z) : MousePoint :=
  {| X := float64_of_int px; Y := float64_of_int py; Time := t; Pressure := None |}.

(** 150 pointer samples, 16 ms apart, on an irregular zig-zag. *)
Definition jitterPath : list MousePoint :=
  map (fun i => let k := Z.of_nat i in
                point (16 * k) (10 * ((k mod 7) * (k mod 5))) (20 * (k mod 3)))
      (seq 0 150).

(** 150 pointer samples, 16 ms apart, on a straight line at constant speed. *)
Definition straightPath : list MousePoint :=
  map (fun i => let k := Z.of_nat i in point (16 * k) (2 * k) k) (seq 0 150).

Definition fourKeys : list string := ["u"; "s"; "e"; "r"].

(** Scenario A: entropy 85, irregular typing rhythm, an 8.5 s session and
    150 pointer samples of lively movement. *)
Definition scenarioA : TelemetryData :=
  {| Dynamics :=
       {| FlightTimes := [50; 120; 210]%float;
          DwellTimes := [60; 95; 130; 80]%float;
          Keys := fourKeys |};
     MousePath := jitterPath;
     EntropyScore := 85%float;
     SessionDuration := 8500;
     CapturedAt := 1763821845000 |}.

(** The same entropy, flight times, session length and number of pointer
    samples, but keys held equally long and the pointer on a straight
    line. *)
Definition scenarioA_steady : TelemetryData :=
  {| Dynamics :=
       {| FlightTimes := [50; 120; 210]%float;
          DwellTimes := [80; 80; 80; 80]%float;
          Keys := fourKeys |};
     MousePath := straightPath;
     EntropyScore := 85%float;
     SessionDuration := 8500;
     CapturedAt := 1763821845000 |}.

(** Scenario B: entropy 15, five equal flight times, five equal dwell
    times, a 1.2 s session and no pointer samples. *)
Definition scenarioB : TelemetryData :=
  {| Dynamics :=
       {| FlightTimes := [100; 100; 100; 100; 100]%float;
          DwellTimes := [80; 80; 80; 80; 80]%float;
          Keys := ["s"; "e"; "c"; "r"; "e"; "t"] |};
     MousePath := [];
     EntropyScore := 15%float;
     SessionDuration := 1200;
     CapturedAt := 1763821845000 |}.

(** Twelve pointer samples on the same irregular zig-zag that all carry
    the timestamp 1000, and scenario A with that path. *)
Definition stalledPath : list MousePoint :=
  map (fun i => let k := Z.of_nat i in
                point 1000 (10 * ((k mod 7) * (k mod 5))) (20 * (k mod 3)))
      (seq 0 12).

Definition scenarioA_stalled : TelemetryData :=
  {| Dynamics := Dynamics scenarioA;
     MousePath := stalledPath;
     EntropyScore := EntropyScore scenarioA;
     SessionDuration := SessionDuration scenarioA;
     CapturedAt := CapturedAt scenarioA |}.

Definition request (s : TelemetryData) : VerifyRequest :=
  {| vr_UserID := "user"; vr_Telemetry := s; vr_Timestamp := CapturedAt s |}.

(** Movement traces, given by integer timestamps and coordinates. *)
Definition sample (t px py : Z) : Gravity.MovementPoint :=
  {| Gravity.timestamp := float64_of_int t;
     Gravity.x := float64_of_int px;
     Gravity.y := float64_of_int py |}.

(** Fourteen samples: one short of the minimum. *)
Definition shortTrace : list Gravity.MovementPoint :=
  map (fun i => let k := Z.of_nat i in sample (20 * k) (3 * k) (k mod 2)) (seq 0 14).

(** Scenario C as a test would build it: 20 samples, 100 ms and 10 px
    apart, on the line y = 0. *)
Definition uniformLine : list Gravity.MovementPoint :=
  map (fun i => let k := Z.of_nat i in sample (100 * k) (10 * k) 0) (seq 0 20).

(** 20 samples on the line y = 0, moving at 0.1 px/ms throughout, but
    reported every 50 ms at first and every 200 ms later. *)
Definition unevenTimes : list Z :=
  map (fun i => 50 * Z.of_nat i) (seq 0 11)
  ++ map (fun i => 500 + 200 * Z.of_nat i) (seq 1 9).

Definition unevenLine : list Gravity.MovementPoint :=
  map (fun t => {| Gravity.timestamp := float64_of_int t;
                   Gravity.x := (float64_of_int t / 10)%float;
                   Gravity.y := 0%float |})
      unevenTimes.

(** 15 samples: the first step takes 100 ms, all later samples carry the
    same timestamp; x advances by one per sample, y alternates 0 and 1. *)
Definition burstTrace : list Gravity.MovementPoint :=
  map (fun i => let k := Z.of_nat i in
                sample (if k =? 0 then 0 else 100) k (k mod 2))
      (seq 0 15).

(** 15 samples with one and the same x = 0.1. *)
Definition verticalTrace : list Gravity.MovementPoint :=
  map (fun i => {| Gravity.timestamp := float64_of_int (100 * Z.of_nat i);
                   Gravity.x := 0.1%float;
                   Gravity.y := float64_of_int (3 * Z.of_nat i) |})
      (seq 0 15).

(** The login form filled in, and the session it leads to when the
    steady snapshot is scored: a challenge. *)
Definition loginForm : Gate.GateState :=
  {| Gate.username := "user"; Gate.password := "secret"; Gate.otp := "";
     Gate.step := Gate.LOGIN; Gate.loading := false; Gate.error := None;
     Gate.riskResponse := None; Gate.telemetryRef := None;
     Gate.userIdRef := "" |}.

Definition challenged : Gate.GateState * EventLog :=
  Session.advance clock (Session.SubmitLogin scenarioA_steady)
    (loginForm, initialLog).

Definition challengedWith (code : string) : Gate.GateState * EventLog :=
  (Observe.withOtp code (fst challenged), snd challenged).

End Samples.

(* ================================================================== *)
(** * The server over a run of requests *)

Module Server.
Import Backend.

Record Request := {
  rq_context : Context;
  rq_method : Method;
  rq_path : string;
  rq_body : Payload
}.

(** The log after one request, and after a run of them. *)
Definition logAfter (eventLog : EventLog) (r : Request) : EventLog :=
  fst (serve (rq_context r) (rq_method r) (rq_path r) (rq_body r) eventLog).

Definition logAfterAll (rs : list Request) (eventLog : EventLog) : EventLog :=
  fold_left logAfter rs eventLog.

(** The scores [CalculateRisk] can return: the multiples of 5 from 0 to 100. *)
Definition scoreLevels : list float :=
  map (fun k => Num.float64_of_int (5 * Z.of_nat k)) (seq 0 21).

(** What every logged event satisfies. *)
Definition wellFormedEvent (e : SecurityEvent) : Prop :=
  In (TrustScore e) scoreLevels
  /\ Status e = (if (TrustScore e <? 70)%float then "challenged" else "success")
  /\ UserID e <> ""%string.

(** What the running server keeps true of its log. *)
Definition invariant (eventLog : EventLog) : Prop :=
  maxSize eventLog = 50
  /\ (List.length (events eventLog) <= 50)%nat
  /\ Forall wellFormedEvent (events eventLog).

End Server.

(* ================================================================== *)
(** * The slider over a run of mouse events *)

Module SliderRuns.
Import Gravity Slider.

(** The sample [handleMouseMove] records for an event. *)
Definition sampleOf (rectLeft rectTop : float) (e : MouseEvent) : MovementPoint :=
  {| timestamp := now e;
     x := (clientX e - rectLeft)%float;
     y := (clientY e - rectTop)%float |}.

Definition moveAll (rect : option (float * float)) (es : list MouseEvent)
    (st : State) : State :=
  fold_left (fun s e => handleMouseMove rect e s) es st.

(** The last [n] elements of a list. *)
Definition lastn {A} (n : nat) (l : list A) : list A :=
  skipn (List.length l - n) l.

(** [handleComplete] followed by its timer, if it has set one: the final
    state and the callbacks made. *)
Definition completeAndSettle (encode : PhysicsAnalysis -> string)
    (st : State) : State * list Callback :=
  match handleComplete encode st with
  | (st', Some t) => let '(st'', cb) := fire t st' in (st'', [cb])
  | (st', None) => (st', [])
  end.

End SliderRuns.

(* ================================================================== *)
(** * More concrete inputs *)

Module MoreSamples.
Import Num Backend.

(** Twelve pointer samples that all carry the timestamp 1000. *)
Definition frozenClockPath : list MousePoint :=
  map (fun i => let k := Z.of_nat i in Samples.point 1000 (7 * k) (k * k)) (seq 0 12).

(** Three verify requests and one challenge request, as the server gets them. *)
Definition run : list Server.Request :=
  [ {| Server.rq_context := Samples.clock; Server.rq_method := POST;
       Server.rq_path := "/api/v1/verify";
       Server.rq_body := VerifyJSON (Samples.request Samples.scenarioA) |};
    {| Server.rq_context := Samples.clock; Server.rq_method := POST;
       Server.rq_path := "/api/v1/verify";
       Server.rq_body := VerifyJSON (Samples.request Samples.scenarioB) |};
    {| Server.rq_context := Samples.clock; Server.rq_method := POST;
       Server.rq_path := "/api/v1/challenge";
       Server.rq_body :=
         ChallengeJSON {| cr_UserID := "user"; Success := true;
                          cr_Timestamp := 1763821850000 |} |};
    {| Server.rq_context := Samples.clock; Server.rq_method := POST;
       Server.rq_path := "/api/v1/verify";
       Server.rq_body := VerifyJSON (Samples.request Samples.scenarioA_steady) |} ].

(** Fifteen samples on the line y = 0, one pixel apart; the first two
    carry the same timestamp, the others follow 100 ms apart. *)
Definition instantLine : list Gravity.MovementPoint :=
  map (fun i => let k := Z.of_nat i in
                Samples.sample (if k =? 0 then 100 else 100 * k) k 0)
      (seq 0 15).

(** A hundred and three mouse events, 16 ms apart, moving right. *)
Definition sweep : list Slider.MouseEvent :=
  map (fun i => {| Slider.clientX := JS.number_of_nat (40 + 2 * i);
                   Slider.clientY := 210%float;
                   Slider.now := JS.number_of_nat (16 * i) |})
      (seq 0 103).

(** A slider state past 90 with only three samples recorded. *)
Definition hastySlide : Slider.State :=
  {| Slider.sliderValue := 95%float; Slider.status := Slider.idle;
     Slider.message := Slider.AlmostThere; Slider.isAnalyzing := false;
     Slider.movementHistory := firstn 3 Samples.uniformLine |}.

(** Thirty mouse events, 60 ms apart, moving right in uneven steps while
    the pointer wobbles up and down; the last one is past 90% of the
    slider. *)
Definition livelySweep : list Slider.MouseEvent :=
  map (fun i => {| Slider.clientX := JS.number_of_nat (101 + 10 * i + 8 * (i mod 3));
                   Slider.clientY := JS.number_of_nat (210 + 5 * (i mod 2));
                   Slider.now := JS.number_of_nat (60 * i) |})
      (seq 0 30).

(** The slider after that sweep. *)
Definition livelySlide : Slider.State :=
  SliderRuns.moveAll (Some (100.5%float, 200%float)) livelySweep Slider.initial.

(** A token text that only tells the two verdicts apart. *)
Definition tokenOf (a : Gravity.PhysicsAnalysis) : string :=
  if Gravity.isHuman a then "physics.human.signature" else "physics.bot.signature".

End MoreSamples.

(* ================================================================== *)
(** * What a reason says about the verdict *)

Module Verdict.
Import Gravity.

(** The verdict a reason states, if it states one. *)
Definition stated (r : Reason) : option bool :=
  match r with
  | HumanDetected _ => Some true
  | BotSuspected _ => Some false
  | InsufficientSamples _ => Some false
  | _ => None
  end.

(** [reasons[reasons.length - 1]], the reason [generatePhysicsProof] puts
    in the token. *)
Definition lastReason (a : PhysicsAnalysis) : option Reason :=
  nth_error (reasons a) (List.length (reasons a) - 1).

End Verdict.

(* ================================================================== *)
(** * One user at the gate *)

Module UserRuns.
Import Backend Gate Session.

Definition withUsername (text : string) (st : GateState) : GateState :=
  {| username := text; password := password st; otp := otp st;
     step := step st; loading := loading st; error := error st;
     riskResponse := riskResponse st; telemetryRef := telemetryRef st;
     userIdRef := userIdRef st |}.

Definition withPassword (text : string) (st : GateState) : GateState :=
  {| username := username st; password := text; otp := otp st;
     step := step st; loading := loading st; error := error st;
     riskResponse := riskResponse st; telemetryRef := telemetryRef st;
     userIdRef := userIdRef st |}.

(** What a user can do: fill in a field (for the code, [text] is the
    value as the field stores it), or trigger one of the gate's handlers,
    the server reading its clock and peer address as [c]. *)
Inductive UserAction :=
| TypeUsername (text : string)
| TypePassword (text : string)
| TypeOtp (text : string)
| Trigger (c : Context) (a : Action).

Definition act (s : GateState * EventLog) (u : UserAction) : GateState * EventLog :=
  match u with
  | TypeUsername text => (withUsername text (fst s), snd s)
  | TypePassword text => (withPassword text (fst s), snd s)
  | TypeOtp text => (Observe.withOtp text (fst s), snd s)
  | Trigger c a => advance c a s
  end.

Definition run (us : list UserAction) : GateState * EventLog :=
  fold_left act us (initialState, initialLog).

(** The newest event of a log. *)
Definition newest (eventLog : EventLog) : option SecurityEvent :=
  nth_error (GetEvents eventLog) 0.

(** A gate on SUCCESS is backed by the log: it keeps a risk response that
    asks for no challenge, with a score not below 70, and the newest event
    of the log records that score for that user with status "success". *)
Definition successBacked (s : GateState * EventLog) : Prop :=
  step (fst s) = SUCCESS ->
  exists r e,
    riskResponse (fst s) = Some r
    /\ RequiresChallenge r = false
    /\ (rr_TrustScore r <? 70)%float = false
    /\ newest (snd s) = Some e
    /\ TrustScore e = rr_TrustScore r
    /\ Status e = "success"%string
    /\ UserID e = userIdRef (fst s).

(** What every run keeps true. *)
Definition backed (s : GateState * EventLog) : Prop :=
  maxSize (snd s) = 50 /\ successBacked s.

End UserRuns.

Module Visits.
Import Backend Gate Session UserRuns.

(** A visit: a challenged login, a code, a reset, and a second login that
    passes. *)
Definition visit : list UserAction :=
  [ TypeUsername "user"; TypePassword "secret";
    Trigger Samples.clock (SubmitLogin Samples.scenarioA_steady);
    TypeOtp "123456";
    Trigger Samples.clock (SubmitChallenge 1763821850000);
    Trigger Samples.clock Reset;
    TypeUsername "user"; TypePassword "secret";
    Trigger Samples.clock (SubmitLogin Samples.scenarioA) ].

End Visits.

(* ================================================================== *)
(** * Facts about binary64 comparisons *)

Section FloatOrder.

Lemma SFcompare_swap (a b : SpecFloat.spec_float) :
  SpecFloat.SFcompare b a = option_map CompOpp (SpecFloat.SFcompare a b).
Proof.
  destruct a as [sa | sa | | sa ma ea], b as [sb | sb | | sb mb eb];
    simpl; try reflexivity;
    try (destruct sa; reflexivity); try (destruct sb; reflexivity);
    try (destruct sa, sb; reflexivity).
  destruct sa, sb; simpl; try reflexivity.
  - rewrite (Z.compare_antisym ea eb).
    destruct (ea ?= eb)%Z; simpl; try reflexivity.
    change (Pos.compare_cont Eq mb ma) with (Pos.compare mb ma).
    change (Pos.compare_cont Eq ma mb) with (Pos.compare ma mb).
    rewrite (Pos.compare_antisym ma mb).
    destruct (ma ?= mb)%positive; reflexivity.
  - rewrite (Z.compare_antisym ea eb).
    destruct (ea ?= eb)%Z; simpl; try reflexivity.
    change (Pos.compare_cont Eq mb ma) with (Pos.compare mb ma).
    change (Pos.compare_cont Eq ma mb) with (Pos.compare ma mb).
    rewrite (Pos.compare_antisym ma mb).
    destruct (ma ?= mb)%positive; reflexivity.
Qed.

Lemma is_nan_SF (a : float) :
  is_nan a = false -> SpecFloat.SFcompare (Prim2SF a) (Prim2SF a) = Some Eq.
Proof.
  unfold is_nan. rewrite eqb_spec. unfold SpecFloat.SFeqb.
  destruct (SpecFloat.SFcompare (Prim2SF a) (Prim2SF a)) as [[ | | ] | ];
    simpl; congruence.
Qed.

Lemma not_nan_comparable (a b : float) :
  is_nan a = false -> is_nan b = false ->
  SpecFloat.SFcompare (Prim2SF a) (Prim2SF b) <> None.
Proof.
  intros Ha Hb. apply is_nan_SF in Ha. apply is_nan_SF in Hb.
  destruct (Prim2SF a), (Prim2SF b); simpl in *; congruence.
Qed.

(** Two numbers of which neither is NaN are ordered one way or the other. *)
Lemma leb_of_not_ltb (a b : float) :
  is_nan a = false -> is_nan b = false ->
  (a <? b)%float = false -> (b <=? a)%float = true.
Proof.
  intros Ha Hb. rewrite ltb_spec, leb_spec.
  unfold SpecFloat.SFltb, SpecFloat.SFleb.
  rewrite (SFcompare_swap (Prim2SF a) (Prim2SF b)).
  pose proof (not_nan_comparable a b Ha Hb) as Hc.
  destruct (SpecFloat.SFcompare (Prim2SF a) (Prim2SF b)) as [[ | | ] | ];
    simpl; congruence.
Qed.

Lemma SFltb_trans (a b c : SpecFloat.spec_float) :
  SpecFloat.SFltb a b = true -> SpecFloat.SFltb b c = true ->
  SpecFloat.SFltb a c = true.
Proof.
  unfold SpecFloat.SFltb.
  destruct a as [sa | sa | | sa ma ea], b as [sb | sb | | sb mb eb],
    c as [sc | sc | | sc mc ec]; simpl;
    try discriminate; try reflexivity;
    try (destruct sa; simpl; try discriminate; try reflexivity);
    try (destruct sb; simpl; try discriminate; try reflexivity);
    try (destruct sc; simpl; try discriminate; try reflexivity).
  all: change (Pos.compare_cont Eq ma mb) with (Pos.compare ma mb);
       change (Pos.compare_cont Eq mb mc) with (Pos.compare mb mc);
       change (Pos.compare_cont Eq ma mc) with (Pos.compare ma mc).
  all: destruct (Z.compare_spec ea eb), (Z.compare_spec eb ec), (Z.compare_spec ea ec);
       try discriminate; try reflexivity; try lia; subst.
  all: destruct (Pos.compare_spec ma mb), (Pos.compare_spec mb mc), (Pos.compare_spec ma mc);
       simpl; try discriminate; try reflexivity; try lia.
Qed.

Lemma ltb_trans (a b c : float) :
  (a <? b)%float = true -> (b <? c)%float = true -> (a <? c)%float = true.
Proof. rewrite !ltb_spec. apply SFltb_trans. Qed.

(** A number above [hi] is not below [lo] when [hi] is not below [lo]. *)
Lemma above_not_below (lo hi v : float) :
  (hi <? lo)%float = false ->
  (hi <? v)%float = true -> (v <? lo)%float = false.
Proof.
  intros Hconst Habove. destruct (v <? lo)%float eqn:Hbelow; [ | reflexivity].
  rewrite (ltb_trans hi v lo Habove Hbelow) in Hconst. discriminate.
Qed.

End FloatOrder.

(* ================================================================== *)
(** * Risk scorer *)

Section RiskScorer.
Import Num Backend.

Lemma at_least_three (n : Z) : (3 <=? n) = (n >? 2).
Proof. rewrite Z.gtb_ltb. destruct (Z.leb_spec 3 n), (Z.ltb_spec 2 n); lia. Qed.

Lemma entropy_middle_band (e : float) :
  is_nan e = false ->
  (e <? 40)%float = false -> (70 <? e)%float = false ->
  ((40 <=? e)%float && (e <=? 70)%float) = true.
Proof.
  intros Hn Hlo Hhi.
  rewrite (leb_of_not_ltb e 40 Hn eq_refl Hlo).
  rewrite (leb_of_not_ltb 70 e eq_refl Hn Hhi).
  reflexivity.
Qed.

(** The code's seven blocks are the seven rows of the table, whatever
    the three variances are. *)
Lemma CalculateRisk_rows (s : TelemetryData) :
  is_nan (EntropyScore s) = false ->
  CalculateRisk s
  = float64_of_int
      (Spec.scoreFor (calculateVariance (FlightTimes (Dynamics s)))
         (calculateVariance (DwellTimes (Dynamics s)))
         (calculateMouseAcceleration (MousePath s)) s).
Proof.
  intros Hnum.
  unfold CalculateRisk, Spec.scoreFor, Spec.adjustmentsFor,
    Spec.entropyAdjustment, Spec.flightAdjustment, Spec.dwellAdjustment,
    Spec.sessionAdjustment, Spec.pointerAccelerationAdjustment,
    Spec.keystrokeCountAdjustment, Spec.pointerCountAdjustment,
    Spec.baseline, gtb.
  rewrite !at_least_three,
    <- (Z.gtb_ltb (SessionDuration s) 300000),
    <- (Z.gtb_ltb (len (MousePath s)) 10),
    <- (Z.gtb_ltb (len (MousePath s)) 100).
  cbv zeta.
  destruct (EntropyScore s <? 40)%float eqn:Hlow;
    [ | destruct (70 <? EntropyScore s)%float eqn:Hhigh;
        [ | rewrite (entropy_middle_band _ Hnum Hlow Hhigh) ] ];
    clear Hnum Hlow; try clear Hhigh;
    generalize (calculateVariance (FlightTimes (Dynamics s))) as flightVariance;
    generalize (calculateVariance (DwellTimes (Dynamics s))) as dwellVariance;
    generalize (calculateMouseAcceleration (MousePath s)) as acceleration;
    generalize (len (FlightTimes (Dynamics s))) as flights;
    generalize (len (DwellTimes (Dynamics s))) as dwells;
    generalize (len (Keys (Dynamics s))) as keystrokeCount;
    generalize (len (MousePath s)) as mousePointCount;
    generalize (SessionDuration s) as duration;
    clear s; intros;
    generalize (flights >? 2) as f0, (flightVariance <? 100)%float as f1,
      (1000 <? flightVariance)%float as f2;
    generalize (dwells >? 2) as d0, (dwellVariance <? 50)%float as d1;
    generalize (duration <? 2000) as s1, (duration >? 300000) as s2;
    generalize (mousePointCount >? 10) as m0, (acceleration <? 1.0)%float as m1,
      (50 <? acceleration)%float as m2;
    generalize (keystrokeCount <? 3) as k1;
    generalize (mousePointCount <? 5) as p1, (mousePointCount >? 100) as p2;
    clear; intros;
    (destruct f0; [ destruct f1; [ | destruct f2 ] | ]);
    (destruct d0; [ destruct d1 | ]);
    (destruct s1; [ | destruct s2 ]);
    (destruct m0; [ destruct m1; [ | destruct m2 ] | ]);
    destruct k1;
    (destruct p1; [ | destruct p2 ]);
    reflexivity.
Qed.

(** A running sum of [f] over a list is the sum of the list of the [f]s. *)
Lemma total_map {A} (f : A -> float) (l : list A) (start : float) :
  fold_left (fun acc a => (acc + f a)%float) l start
  = fold_left (fun acc v => (acc + v)%float) (map f l) start.
Proof.
  revert start. induction l as [ | a l IH]; intros start; [reflexivity | ].
  cbn [fold_left map]. apply IH.
Qed.

(** [calculateVariance] computes the population variance, and 0 below two
    values. *)
Lemma calculateVariance_variance (data : list float) :
  calculateVariance data
  = if len data <? 2 then 0%float else Stats.variance data.
Proof.
  unfold calculateVariance, Stats.variance, Stats.mean, Stats.total.
  destruct (len data <? 2); [reflexivity | ].
  cbv zeta. rewrite total_map. reflexivity.
Qed.

(** One turn of the loop is the acceleration magnitude of the triple,
    unless one of its time steps is zero. *)
Lemma accelMagnitude_triple (p1 p2 p3 : MousePoint) :
  accelMagnitude p1 p2 p3
  = if Spec.hasZeroStep (p1, p2, p3) then None
    else Some (Spec.accelerationMagnitude Spec.secondsBetween (p1, p2, p3)).
Proof. reflexivity. Qed.

Lemma accelerationsOf_triples (mousePath : list MousePoint) :
  accelerationsOf mousePath
  = map (Spec.accelerationMagnitude Spec.secondsBetween) (Spec.timedTriples mousePath).
Proof.
  unfold Spec.timedTriples.
  induction mousePath as [ | p1 rest IH]; [reflexivity | ].
  destruct rest as [ | p2 [ | p3 rest']]; [reflexivity | reflexivity | ].
  change (accelerationsOf (p1 :: p2 :: p3 :: rest'))
    with (match accelMagnitude p1 p2 p3 with
          | Some a => a :: accelerationsOf (p2 :: p3 :: rest')
          | None => accelerationsOf (p2 :: p3 :: rest')
          end).
  change (Stats.triples (p1 :: p2 :: p3 :: rest'))
    with ((p1, p2, p3) :: Stats.triples (p2 :: p3 :: rest')).
  rewrite accelMagnitude_triple, IH. cbn [filter].
  destruct (Spec.hasZeroStep (p1, p2, p3)); reflexivity.
Qed.

(** [calculateMouseAcceleration] computes the variance of the acceleration
    magnitudes of the triples without a zero time step. *)
Lemma calculateMouseAcceleration_variance (mousePath : list MousePoint) :
  calculateMouseAcceleration mousePath = Spec.pointerAccelerationVariance mousePath.
Proof.
  unfold calculateMouseAcceleration, Spec.pointerAccelerationVariance.
  rewrite calculateVariance_variance, accelerationsOf_triples.
  destruct (len mousePath <? 3) eqn:Hfew; [ | reflexivity].
  destruct mousePath as [ | p1 [ | p2 [ | p3 rest]]]; try reflexivity.
  apply Z.ltb_lt in Hfew. unfold len in Hfew. cbn [List.length] in Hfew. lia.
Qed.

(** A row that needs samples reads its variance only when it has them. *)
Lemma flightAdjustment_guarded (data : list float) :
  Spec.flightAdjustment (len data) (calculateVariance data)
  = Spec.flightAdjustment (len data) (Stats.variance data).
Proof.
  unfold Spec.flightAdjustment. rewrite calculateVariance_variance.
  destruct (Z.leb_spec 3 (len data)) as [Hlen | Hlen]; [ | reflexivity].
  replace (len data <? 2) with false by (symmetry; apply Z.ltb_ge; lia).
  reflexivity.
Qed.

Lemma dwellAdjustment_guarded (data : list float) :
  Spec.dwellAdjustment (len data) (calculateVariance data)
  = Spec.dwellAdjustment (len data) (Stats.variance data).
Proof.
  unfold Spec.dwellAdjustment. rewrite calculateVariance_variance.
  destruct (Z.leb_spec 3 (len data)) as [Hlen | Hlen]; [ | reflexivity].
  replace (len data <? 2) with false by (symmetry; apply Z.ltb_ge; lia).
  reflexivity.
Qed.

Lemma triples_length {A} (l : list A) :
  List.length (Stats.triples l) = (List.length l - 2)%nat.
Proof.
  induction l as [ | a rest IH]; [reflexivity | ].
  destruct rest as [ | b [ | c rest']]; [reflexivity | reflexivity | ].
  cbn [Stats.triples List.length] in *. lia.
Qed.

Lemma filter_all {A} (f : A -> bool) (l : list A) :
  forallb f l = true -> filter f l = l.
Proof.
  induction l as [ | a l IH]; [reflexivity | ].
  cbn [forallb filter]. intros H. apply andb_prop in H. destruct H as [Ha Hl].
  rewrite Ha, (IH Hl). reflexivity.
Qed.

(** Without a zero time step, and with the samples the row needs, the
    variance is the one over all triples. *)
Lemma pointerAccelerationAdjustment_stated (path : list MousePoint) :
  Spec.noZeroStep path = true ->
  Spec.pointerAccelerationAdjustment (len path) (Spec.pointerAccelerationVariance path)
  = Spec.pointerAccelerationAdjustment (len path) (Spec.statedAccelerationVariance path).
Proof.
  intros Htimed.
  unfold Spec.pointerAccelerationAdjustment, Spec.pointerAccelerationVariance,
    Spec.statedAccelerationVariance, Spec.timedTriples.
  rewrite (filter_all _ _ Htimed).
  destruct (Z.ltb_spec 10 (len path)) as [Hlen | Hlen]; [ | reflexivity].
  replace (len (map (Spec.accelerationMagnitude Spec.secondsBetween)
                  (Stats.triples path)) <? 2)
    with false; [reflexivity | ].
  symmetry. apply Z.ltb_ge. unfold len in *.
  rewrite length_map, triples_length. lia.
Qed.

(** C1, amended. For every telemetry snapshot (its entropy score being a
    number), [CalculateRisk] returns the baseline 50 plus the adjustments
    of the table that apply, clamped to [0,100]: entropy below 40 / 40 to
    70 / above 70 gives -35 / +5 / +25; the population variance of the
    flight times, with at least three of them, gives -30 below 100 and +15
    above 1000; that of the dwell times, with at least three, gives -15
    below 50; session duration gives -20 below 2000 ms and -10 above
    300000 ms; pointer acceleration variance with more than ten samples
    gives -25 below 1.0 and +10 above 50, where the variance is that of
    the magnitudes of the differences of the two seconds-based velocities
    of each consecutive triple whose two time steps are not zero, and 0
    when fewer than two such magnitudes exist; fewer than three keystrokes
    give -15; fewer than five pointer samples give -10 and more than a
    hundred give +5.  The binary64 result is exactly the integer the table
    gives.  On a snapshot whose pointer path has no zero time step this is
    the table as stated, over all triples. *)
Theorem CalculateRisk_table (s : TelemetryData) :
  is_nan (EntropyScore s) = false ->
  CalculateRisk s = float64_of_int (Spec.scoreTelemetry s)
  /\ (Spec.noZeroStep (MousePath s) = true ->
      Spec.scoreTelemetry s = Spec.statedScore s
      /\ CalculateRisk s = float64_of_int (Spec.statedScore s)).
Proof.
  intros Hnum.
  assert (Hamended : CalculateRisk s = float64_of_int (Spec.scoreTelemetry s)).
  { rewrite (CalculateRisk_rows s Hnum).
    unfold Spec.scoreTelemetry, Spec.scoreFor, Spec.adjustmentsFor.
    rewrite flightAdjustment_guarded, dwellAdjustment_guarded,
      calculateMouseAcceleration_variance.
    reflexivity. }
  split; [exact Hamended | ].
  intros Htimed.
  assert (Hstated : Spec.scoreTelemetry s = Spec.statedScore s).
  { unfold Spec.scoreTelemetry, Spec.statedScore, Spec.scoreFor, Spec.adjustmentsFor.
    rewrite (pointerAccelerationAdjustment_stated _ Htimed). reflexivity. }
  split; [exact Hstated | ].
  rewrite <- Hstated. exact Hamended.
Qed.

End RiskScorer.

(* ================================================================== *)
(** * Audit log *)

Section AuditLog.
Import Num Backend Audit.

Lemma store_repeat {A} (z e : A) (k : nat) (tl : list A) :
  store k e (repeat z (S k) ++ tl) = repeat z k ++ e :: tl.
Proof.
  induction k as [ | k IH]; [reflexivity | ].
  simpl in *. f_equal. exact IH.
Qed.

Lemma GetEvents_loop (n : nat) (todo done : list SecurityEvent) :
  n = (List.length done + List.length todo)%nat ->
  fst (fold_left
         (fun '(result, i) e => (store (n - 1 - i) e result, S i))
         todo (repeat zeroEvent (List.length todo) ++ rev done, List.length done))
  = rev (done ++ todo).
Proof.
  revert done. induction todo as [ | e todo IH]; intros done Hn.
  - simpl. rewrite app_nil_r. reflexivity.
  - cbn [fold_left].
    replace (n - 1 - List.length done)%nat with (List.length todo)
      by (simpl in Hn; lia).
    change (List.length (e :: todo)) with (S (List.length todo)).
    rewrite store_repeat.
    specialize (IH (done ++ [e])).
    rewrite rev_app_distr, length_app in IH. simpl in IH.
    replace (List.length done + 1)%nat with (S (List.length done)) in IH by lia.
    rewrite IH by (simpl in Hn; lia).
    rewrite <- app_assoc. reflexivity.
Qed.

(** [GetEvents] is the stored slice reversed. *)
Lemma GetEvents_rev (el : EventLog) : GetEvents el = rev (events el).
Proof.
  unfold GetEvents.
  pose proof (GetEvents_loop (List.length (events el)) (events el) [] eq_refl) as H.
  simpl in H. rewrite app_nil_r in H. exact H.
Qed.

Lemma maxSize_LogEvent (e : SecurityEvent) (el : EventLog) :
  maxSize (LogEvent e el) = maxSize el.
Proof. reflexivity. Qed.

Lemma maxSize_record_all (es : list SecurityEvent) (el : EventLog) :
  maxSize (record_all es el) = maxSize el.
Proof.
  revert el. induction es as [ | e es IH]; intros el; [reflexivity | ].
  simpl. rewrite IH. reflexivity.
Qed.

(** One [LogEvent] keeps the last [maxSize] of the old events and the new. *)
Lemma events_LogEvent (e : SecurityEvent) (el : EventLog) :
  0 <= maxSize el ->
  events (LogEvent e el)
  = skipn (List.length (events el ++ [e]) - Z.to_nat (maxSize el)) (events el ++ [e]).
Proof.
  intros Hcap. unfold LogEvent, len. cbn [events].
  destruct (Z.gtb_spec (Z.of_nat (List.length (events el ++ [e]))) (maxSize el)) as [Hgt | Hle].
  - f_equal. lia.
  - replace (List.length (events el ++ [e]) - Z.to_nat (maxSize el))%nat with O by lia.
    reflexivity.
Qed.

(** After any run of insertions into an empty log of capacity [cap], the
    log holds the last [cap] of them, oldest first. *)
Lemma events_record_all (cap : Z) (es : list SecurityEvent) :
  0 <= cap ->
  events (record_all es {| events := []; maxSize := cap |})
  = skipn (List.length es - Z.to_nat cap) es.
Proof.
  intros Hcap. induction es as [ | e es IH] using rev_ind; [reflexivity | ].
  unfold record_all in *. rewrite fold_left_app. cbn [fold_left].
  rewrite events_LogEvent
    by (fold (record_all es {| events := []; maxSize := cap |});
        rewrite maxSize_record_all; exact Hcap).
  fold (record_all es {| events := []; maxSize := cap |}).
  rewrite maxSize_record_all. cbn [maxSize].
  unfold record_all. rewrite IH.
  rewrite !length_app, length_skipn. cbn [List.length].
  destruct (Nat.le_gt_cases (List.length es) (Z.to_nat cap)) as [Hle | Hgt].
  - replace (List.length es - Z.to_nat cap)%nat with O by lia.
    cbn [skipn]. f_equal. lia.
  - rewrite skipn_app, length_skipn.
    rewrite skipn_skipn.
    rewrite (skipn_app (List.length es + 1 - Z.to_nat cap)).
    f_equal; f_equal; lia.
Qed.

End AuditLog.

Section AuditLogClaims.
Import Num Backend Audit.

Lemma GetEvents_record_all (es : list SecurityEvent) :
  GetEvents (record_all es initialLog) = mostRecentFirst 50 es.
Proof.
  rewrite GetEvents_rev. unfold initialLog, mostRecentFirst.
  rewrite events_record_all by lia.
  rewrite firstn_rev. reflexivity.
Qed.

(** C6. After N > 50 [record] operations on the empty log of capacity 50,
    [list()] returns exactly the 50 most recently inserted events, most
    recent first; the stored count never exceeds 50 after any of the
    operations; and right after [record(e)] the first element of [list()]
    is [e]. *)
Theorem audit_log_bound (es : list SecurityEvent) :
  (50 < List.length es)%nat ->
  GetEvents (record_all es initialLog) = mostRecentFirst 50 es
  /\ List.length (GetEvents (record_all es initialLog)) = 50%nat
  /\ (forall k,
        (List.length (events (record_all (firstn k es) initialLog)) <= 50)%nat)
  /\ (forall k e,
        nth_error
          (GetEvents (LogEvent e (record_all (firstn k es) initialLog))) 0
        = Some e).
Proof.
  intros Hlen. repeat split.
  - apply GetEvents_record_all.
  - rewrite GetEvents_record_all. unfold mostRecentFirst.
    rewrite length_firstn, length_rev. lia.
  - intros k. unfold initialLog. rewrite events_record_all by lia.
    rewrite length_skipn. change (Z.to_nat 50) with 50%nat. lia.
  - intros k e.
    change (LogEvent e (record_all (firstn k es) initialLog))
      with (fold_left (fun log e => LogEvent e log) [e]
              (fold_left (fun log e => LogEvent e log) (firstn k es) initialLog)).
    rewrite <- fold_left_app.
    fold (record_all (firstn k es ++ [e]) initialLog).
    rewrite GetEvents_record_all. unfold mostRecentFirst.
    rewrite rev_app_distr. reflexivity.
Qed.

Lemma audit_log_bound_witness :
  (50 < List.length Samples.events51)%nat
  /\ GetEvents (record_all Samples.events51 initialLog)
     = mostRecentFirst 50 Samples.events51.
Proof.
  split; [ vm_compute; lia | ].
  apply (audit_log_bound Samples.events51). vm_compute. lia.
Defined.

End AuditLogClaims.

(* ================================================================== *)
(** * The verify operation *)

Section Verify.
Import Num Backend.

Lemma CalculateRisk_table_witness :
  CalculateRisk Samples.scenarioA
  = float64_of_int (Spec.scoreTelemetry Samples.scenarioA)
  /\ Spec.scoreTelemetry Samples.scenarioA = Spec.statedScore Samples.scenarioA.
Proof.
  destruct (CalculateRisk_table Samples.scenarioA) as [Hscore Hstated].
  - reflexivity.
  - destruct Hstated as [Hsame _]; [vm_compute; reflexivity | ].
    split; [exact Hscore | exact Hsame].
Defined.

(** C1, as stated, fails.  Scenario A with twelve pointer samples that all
    carry one timestamp: no triple has a time step that is not zero, the
    code finds no acceleration at all, takes the variance as 0 and
    subtracts 25, ending at 65, so that a challenge is required.  Over all
    triples every velocity is a division by zero and the variance is not a
    number, which is neither below 1.0 nor above 50: the table as stated
    gives 90.  With the time steps floored to 1 ms the variance is far
    above 50 and the table gives 100. *)
Lemma stalled_clock_scored_as_smooth :
  len (MousePath Samples.scenarioA_stalled) = 12
  /\ Forall (fun p => Time p = 1000) (MousePath Samples.scenarioA_stalled)
  /\ is_nan (EntropyScore Samples.scenarioA_stalled) = false
  /\ accelerationsOf (MousePath Samples.scenarioA_stalled) = []
  /\ calculateMouseAcceleration (MousePath Samples.scenarioA_stalled) = 0%float
  /\ CalculateRisk Samples.scenarioA_stalled = 65%float
  /\ is_nan (Spec.statedAccelerationVariance (MousePath Samples.scenarioA_stalled)) = true
  /\ Spec.statedScore Samples.scenarioA_stalled = 90
  /\ (50 <? Spec.flooredAccelerationVariance (MousePath Samples.scenarioA_stalled))%float
     = true
  /\ Spec.flooredScore Samples.scenarioA_stalled = 100
  /\ CalculateRisk Samples.scenarioA_stalled
     <> float64_of_int (Spec.statedScore Samples.scenarioA_stalled)
  /\ CalculateRisk Samples.scenarioA_stalled
     <> float64_of_int (Spec.flooredScore Samples.scenarioA_stalled)
  /\ snd (VerifyBehaviorHandler Samples.clock
            (VerifyJSON (Samples.request Samples.scenarioA_stalled)) initialLog)
     = OKRisk {| rr_TrustScore := 65%float; RequiresChallenge := true |}.
Proof.
  repeat apply conj; try (vm_compute; reflexivity);
    try (vm_compute; repeat constructor); vm_compute; discriminate.
Qed.

(** C2. Whatever the verify operation is sent, it either rejects the body
    or answers with an assessment whose score is the one [CalculateRisk]
    computes for the snapshot and whose [requiresChallenge] flag equals
    [score < 70]. *)
Theorem verify_threshold (c : Context) (body : Payload) (eventLog : EventLog) :
  match snd (VerifyBehaviorHandler c body eventLog) with
  | OKRisk r =>
      RequiresChallenge r = (rr_TrustScore r <? 70)%float
      /\ exists req, bindVerify body = Some req
                     /\ rr_TrustScore r = CalculateRisk (vr_Telemetry req)
  | BadRequest _ => bindVerify body = None
  | _ => False
  end.
Proof.
  unfold VerifyBehaviorHandler.
  destruct (bindVerify body) as [req | ]; cbn [snd].
  - cbn [RequiresChallenge rr_TrustScore]. split; [reflexivity | ].
    exists req. split; reflexivity.
  - reflexivity.
Qed.

(** C10. The assessment depends on the snapshot alone: two verify calls
    with the same snapshot give the same trust score and the same
    [requiresChallenge] flag, whatever the clock, the peer address, the
    user, the request timestamp and the contents of the event log at
    either call - in particular when the second call runs on the log the
    first one left. *)
Theorem verify_deterministic
    (c1 c2 : Context) (log1 log2 : EventLog) (req1 req2 : VerifyRequest) :
  vr_UserID req1 <> ""%string -> vr_UserID req2 <> ""%string ->
  vr_Telemetry req1 = vr_Telemetry req2 ->
  snd (VerifyBehaviorHandler c1 (VerifyJSON req1) log1)
  = snd (VerifyBehaviorHandler c2 (VerifyJSON req2) log2)
  /\ snd (VerifyBehaviorHandler c2 (VerifyJSON req2)
            (fst (VerifyBehaviorHandler c1 (VerifyJSON req1) log1)))
     = snd (VerifyBehaviorHandler c1 (VerifyJSON req1) log1)
  /\ exists r, snd (VerifyBehaviorHandler c1 (VerifyJSON req1) log1) = OKRisk r.
Proof.
  intros H1 H2 Heq. unfold VerifyBehaviorHandler, bindVerify.
  apply String.eqb_neq in H1. apply String.eqb_neq in H2.
  rewrite H1, H2, Heq. cbn [fst snd].
  repeat split. eexists. reflexivity.
Qed.

Lemma verify_deterministic_witness :
  snd (VerifyBehaviorHandler Samples.clock
         (VerifyJSON (Samples.request Samples.scenarioA)) initialLog)
  = snd (VerifyBehaviorHandler Samples.clock
           (VerifyJSON (Samples.request Samples.scenarioA))
           (fst (VerifyBehaviorHandler Samples.clock
                   (VerifyJSON (Samples.request Samples.scenarioA)) initialLog))).
Proof.
  apply (verify_deterministic Samples.clock Samples.clock initialLog
           (fst (VerifyBehaviorHandler Samples.clock
                   (VerifyJSON (Samples.request Samples.scenarioA)) initialLog))
           (Samples.request Samples.scenarioA) (Samples.request Samples.scenarioA));
    [ discriminate | discriminate | reflexivity ].
Defined.

End Verify.

(* ================================================================== *)
(** * Scenario A *)

Section ScenarioA.
Import Num Backend.

(** C9, as stated, fails: entropy 85, flight-time variance above 1000 over
    three samples, a session of 8500 ms and 150 pointer samples do not fix
    the score.  With equal dwell times and the pointer on a straight line
    the score is 55 and a challenge is required. *)
Lemma scenarioA_not_determined :
  EntropyScore Samples.scenarioA_steady = 85%float
  /\ 3 <= len (FlightTimes (Dynamics Samples.scenarioA_steady))
  /\ (1000 <? calculateVariance (FlightTimes (Dynamics Samples.scenarioA_steady)))%float = true
  /\ SessionDuration Samples.scenarioA_steady = 8500
  /\ len (MousePath Samples.scenarioA_steady) = 150
  /\ CalculateRisk Samples.scenarioA_steady = 55%float
  /\ CalculateRisk Samples.scenarioA_steady <> 100%float
  /\ snd (VerifyBehaviorHandler Samples.clock
            (VerifyJSON (Samples.request Samples.scenarioA_steady)) initialLog)
     = OKRisk {| rr_TrustScore := 55%float; RequiresChallenge := true |}.
Proof.
  repeat apply conj; try (vm_compute; reflexivity); vm_compute; discriminate.
Qed.

(** C9, amended. A snapshot with entropy 85, flight-time variance above
    1000 over at least three samples, a session of 8500 ms and 150 pointer
    samples, which moreover has no dwell-time penalty (fewer than three
    dwell samples or a variance not below 50), a pointer acceleration
    variance above 50 and at least three keystrokes, scores 50 + 25 + 15 +
    10 + 5 = 105, clamped to 100, and requires no challenge. *)
Theorem scenarioA_score (s : TelemetryData) :
  EntropyScore s = 85%float ->
  3 <= len (FlightTimes (Dynamics s)) ->
  (1000 <? calculateVariance (FlightTimes (Dynamics s)))%float = true ->
  SessionDuration s = 8500 ->
  len (MousePath s) = 150 ->
  (len (DwellTimes (Dynamics s)) < 3
   \/ (calculateVariance (DwellTimes (Dynamics s)) <? 50)%float = false) ->
  (50 <? calculateMouseAcceleration (MousePath s))%float = true ->
  3 <= len (Keys (Dynamics s)) ->
  CalculateRisk s = 100%float
  /\ forall c userId timestamp eventLog,
       userId <> ""%string ->
       snd (VerifyBehaviorHandler c
              (VerifyJSON {| vr_UserID := userId; vr_Telemetry := s;
                             vr_Timestamp := timestamp |}) eventLog)
       = OKRisk {| rr_TrustScore := 100%float; RequiresChallenge := false |}.
Proof.
  intros Hentropy Hflights Hflight Hsession Hpoints Hdwell Haccel Hkeys.
  assert (Hscore : CalculateRisk s = 100%float).
  { unfold CalculateRisk, gtb. cbv zeta.
    rewrite Hentropy, Hsession, Hpoints, Hflight, Haccel.
    rewrite (above_not_below 100 1000 _ eq_refl Hflight).
    rewrite (above_not_below 1.0 50 _ eq_refl Haccel).
    replace (len (FlightTimes (Dynamics s)) >? 2) with true
      by (symmetry; apply Z.gtb_lt; lia).
    replace (len (Keys (Dynamics s)) <? 3) with false
      by (symmetry; apply Z.ltb_ge; lia).
    destruct Hdwell as [Hfew | Hvaried].
    - replace (len (DwellTimes (Dynamics s)) >? 2) with false
        by (symmetry; rewrite Z.gtb_ltb; apply Z.ltb_ge; lia).
      reflexivity.
    - rewrite Hvaried. destruct (len (DwellTimes (Dynamics s)) >? 2); reflexivity. }
  split; [exact Hscore | ].
  intros c userId timestamp eventLog Hid.
  unfold VerifyBehaviorHandler, bindVerify. cbn [vr_UserID vr_Telemetry].
  apply String.eqb_neq in Hid. rewrite Hid. cbn [snd vr_UserID vr_Telemetry].
  rewrite Hscore. reflexivity.
Qed.

Lemma scenarioA_score_witness :
  CalculateRisk Samples.scenarioA = 100%float
  /\ snd (VerifyBehaviorHandler Samples.clock
            (VerifyJSON (Samples.request Samples.scenarioA)) initialLog)
     = OKRisk {| rr_TrustScore := 100%float; RequiresChallenge := false |}.
Proof.
  destruct (scenarioA_score Samples.scenarioA) as [Hscore Hverify].
  - reflexivity.
  - vm_compute. discriminate.
  - vm_compute. reflexivity.
  - reflexivity.
  - vm_compute. reflexivity.
  - right. vm_compute. reflexivity.
  - vm_compute. reflexivity.
  - vm_compute. discriminate.
  - split; [exact Hscore | ].
    apply (Hverify Samples.clock "user"%string
             (CapturedAt Samples.scenarioA) initialLog).
    discriminate.
Defined.

(** Scenario B runs to 50 - 35 - 30 - 15 - 20 - 10 = -60, clamped to 0, and
    a challenge is required. *)
Lemma scenarioB_score :
  Spec.adjustments Samples.scenarioB = [-35; -30; -15; -20; 0; 0; -10]
  /\ snd (VerifyBehaviorHandler Samples.clock
            (VerifyJSON (Samples.request Samples.scenarioB)) initialLog)
     = OKRisk {| rr_TrustScore := 0%float; RequiresChallenge := true |}.
Proof. split; vm_compute; reflexivity. Qed.

End ScenarioA.

(* ================================================================== *)
(** * Physics classifier *)

Section PhysicsClassifier.
Import Num JS Gravity Stats PhysicsSpec.

(** C4. A trace of fewer than 15 samples is turned away at once: not
    human, confidence 0, the insufficient-samples reason alone, and no
    velocities or accelerations; no check has left a reason or an
    adjustment. *)
Theorem insufficient_samples (points : list MovementPoint) :
  (List.length points < 15)%nat ->
  analyzePhysics points
  = {| isHuman := false;
       confidence := 0%float;
       reasons := [InsufficientSamples (List.length points)];
       velocities := [];
       accelerations := [] |}.
Proof.
  intros Hshort. unfold analyzePhysics, MIN_SAMPLES.
  apply Nat.ltb_lt in Hshort. rewrite Hshort. reflexivity.
Qed.

Lemma insufficient_samples_witness :
  (List.length Samples.shortTrace < 15)%nat
  /\ isHuman (analyzePhysics Samples.shortTrace) = false
  /\ confidence (analyzePhysics Samples.shortTrace) = 0%float.
Proof.
  split; [ vm_compute; lia | ].
  rewrite (insufficient_samples Samples.shortTrace) by (vm_compute; lia).
  split; reflexivity.
Defined.

Lemma at_least_two_samples (points : list MovementPoint) :
  (15 <= List.length points)%nat ->
  exists p0 p1 rest, points = p0 :: p1 :: rest.
Proof.
  destruct points as [ | p0 [ | p1 rest]]; simpl; intros H; try lia.
  exists p0, p1, rest. reflexivity.
Qed.

(** Dividing by zero never gives a finite number. *)
Lemma division_by_zero_not_finite (d dt : float) :
  (dt =? 0)%float = true -> is_finite (d / dt) = false.
Proof.
  intros Hzero.
  rewrite eqb_spec in Hzero.
  unfold is_finite, is_nan, is_infinity.
  rewrite !eqb_spec, abs_spec, div_spec.
  change (Prim2SF 0) with (SpecFloat.S754_zero false) in Hzero.
  change (Prim2SF infinity) with (SpecFloat.S754_infinity false).
  destruct (Prim2SF dt) as [st | st | | st mt et];
    try discriminate Hzero; try (destruct st; discriminate Hzero).
  destruct (Prim2SF d) as [sd | sd | | sd md ed];
    try reflexivity; destruct sd, st; reflexivity.
Qed.

(** A step's velocity is finite for the code exactly when distance over
    time is, and then the two agree. *)
Lemma calculateVelocity_step (p q : MovementPoint) :
  is_finite (calculateVelocity p q) = is_finite (stepVelocity (p, q))
  /\ (is_finite (calculateVelocity p q) = true ->
      calculateVelocity p q = stepVelocity (p, q)).
Proof.
  unfold calculateVelocity, stepVelocity, distance, norm, displacement.
  cbn [fst snd].
  destruct (timestamp q - timestamp p =? 0)%float eqn:Hzero.
  - rewrite (division_by_zero_not_finite _ _ Hzero).
    split; [reflexivity | discriminate].
  - split; reflexivity.
Qed.

(** The loop of CHECK 2 collects the finite step velocities. *)
Lemma finiteVelocities_steps (points : list MovementPoint) :
  finiteVelocities points = finiteStepVelocities points.
Proof.
  unfold finiteStepVelocities.
  induction points as [ | p0 rest IH]; [reflexivity | ].
  destruct rest as [ | p1 rest']; [reflexivity | ].
  change (finiteVelocities (p0 :: p1 :: rest'))
    with (let vel := calculateVelocity p0 p1 in
          if isFinite vel then vel :: finiteVelocities (p1 :: rest')
          else finiteVelocities (p1 :: rest')).
  change (steps (p0 :: p1 :: rest')) with ((p0, p1) :: steps (p1 :: rest')).
  cbv zeta. cbn [map filter]. unfold isFinite. rewrite IH.
  destruct (calculateVelocity_step p0 p1) as [Hsame Hvalue].
  rewrite <- Hsame.
  destruct (is_finite (calculateVelocity p0 p1)); [ | reflexivity].
  rewrite (Hvalue eq_refl). reflexivity.
Qed.

Lemma calculateAccelerations_steps (vs : list float) :
  calculateAccelerations vs = map (fun '(v, w) => abs (w - v)) (steps vs).
Proof.
  induction vs as [ | v0 rest IH]; [reflexivity | ].
  destruct rest as [ | v1 rest']; [reflexivity | ].
  change (calculateAccelerations (v0 :: v1 :: rest'))
    with (abs (v1 - v0) :: calculateAccelerations (v1 :: rest')).
  rewrite IH. reflexivity.
Qed.

(** CHECK 4 computes the population standard deviation. *)
Lemma accelStdDevOf_deviation (accelerations : list float) :
  accelStdDevOf accelerations = standardDeviation accelerations.
Proof.
  unfold accelStdDevOf, standardDeviation, variance, mean, total, sum, pow2,
    number_of_nat, flen, len.
  cbv zeta. rewrite total_map. reflexivity.
Qed.

Lemma directionChanged_turns (p1 p2 p3 : MovementPoint) :
  directionChanged p1 p2 p3 = turns (p1, p2, p3).
Proof.
  unfold directionChanged, turns, gtb, norm, dot, displacement. cbn [fst snd].
  cbv zeta.
  destruct (0 <? _)%float; [ | reflexivity].
  destruct (0 <? _)%float; reflexivity.
Qed.

(** The loop of CHECK 5 counts the triples that turn. *)
Lemma countDirectionChanges_turns (points : list MovementPoint) :
  countDirectionChanges points = directionChanges points.
Proof.
  unfold directionChanges.
  induction points as [ | p1 rest IH]; [reflexivity | ].
  destruct rest as [ | p2 [ | p3 rest']]; [reflexivity | reflexivity | ].
  change (countDirectionChanges (p1 :: p2 :: p3 :: rest'))
    with ((if directionChanged p1 p2 p3 then 1 else 0)
          + countDirectionChanges (p2 :: p3 :: rest'))%nat.
  change (triples (p1 :: p2 :: p3 :: rest'))
    with ((p1, p2, p3) :: triples (p2 :: p3 :: rest')).
  rewrite IH, directionChanged_turns. cbn [filter].
  destruct (turns (p1, p2, p3)); reflexivity.
Qed.


Lemma fold_pair {A} (f g : A -> float) (l : list A) (a b : float) :
  fold_left (fun '(s, t) p => ((s + f p)%float, (t + g p)%float)) l (a, b)
  = (fold_left (fun s p => (s + f p)%float) l a,
     fold_left (fun t p => (t + g p)%float) l b).
Proof.
  revert a b. induction l as [ | p l IH]; intros a b; [reflexivity | ].
  cbn [fold_left]. apply IH.
Qed.

Lemma combine_same {A B C} (f : A -> B) (g : A -> C) (l : list A) :
  combine (map f l) (map g l) = map (fun a => (f a, g a)) l.
Proof.
  induction l as [ | a l IH]; [reflexivity | ].
  cbn [map combine]. rewrite IH. reflexivity.
Qed.

Lemma hd_map {A B} (f : A -> B) (d : A) (l : list A) :
  hd (f d) (map f l) = f (hd d l).
Proof. destruct l; reflexivity. Qed.

Lemma last_map {A B} (f : A -> B) (d : A) (l : list A) :
  last (map f l) (f d) = f (last l d).
Proof.
  induction l as [ | a l IH]; [reflexivity | ].
  destruct l as [ | b l']; [reflexivity | ].
  change (last (map f (a :: b :: l')) (f d)) with (last (map f (b :: l')) (f d)).
  change (last (a :: b :: l') d) with (last (b :: l') d).
  exact IH.
Qed.

Lemma map_fst_combine_seq {A} (l : list A) (start : nat) :
  map fst (combine (seq start (List.length l)) l) = seq start (List.length l).
Proof.
  revert start. induction l as [ | a l IH]; intros start; [reflexivity | ].
  cbn [List.length seq combine map fst]. rewrite IH. reflexivity.
Qed.

Lemma map_snd_combine_seq {A} (l : list A) (start : nat) :
  map snd (combine (seq start (List.length l)) l) = l.
Proof.
  revert start. induction l as [ | a l IH]; intros start; [reflexivity | ].
  cbn [List.length seq combine map snd]. rewrite IH. reflexivity.
Qed.

(** [measureLinearity] computes the R-squared style linearity of the x
    positions along the sequence of samples. *)
Lemma measureLinearity_linearity (points : list MovementPoint) :
  (3 <= List.length points)%nat ->
  measureLinearity points = linearity points.
Proof.
  intros Hlen. unfold measureLinearity, linearity.
  replace (List.length points <? 3)%nat with false
    by (symmetry; apply Nat.ltb_ge; exact Hlen).
  set (rel := map (fun '(i, p) => {| rel_t := number_of_nat i; rel_x := x p; rel_y := y p |})
                  (withIndex points)).
  assert (Hx : map x points = map rel_x rel).
  { unfold rel, withIndex. rewrite map_map.
    rewrite <- (map_snd_combine_seq points 0) at 1. rewrite map_map.
    apply map_ext. intros [i p]. reflexivity. }
  assert (Ht : map number_of_nat (seq 0 (List.length points)) = map rel_t rel).
  { unfold rel, withIndex. rewrite map_map.
    rewrite <- (map_fst_combine_seq points 0) at 1. rewrite map_map.
    apply map_ext. intros [i p]. reflexivity. }
  assert (Hn : List.length points = List.length rel).
  { rewrite <- (length_map x points), Hx, length_map. reflexivity. }
  cbv zeta. rewrite length_map, Ht, Hx, Hn. clearbody rel. clear.
  rewrite combine_same.
  rewrite (hd_map rel_x dummyRel), (last_map rel_x dummyRel).
  rewrite fold_pair.
  unfold total. rewrite !map_map. rewrite <- !total_map.
  reflexivity.
Qed.

(** The adjustments of the table, read off the trace by the
    specification's features, are those the code's own readings give. *)
Lemma guardedAdjustments_read (points : list MovementPoint) :
  (15 <= List.length points)%nat ->
  guardedAdjustments points
  = [ onsetAdjustment (firstGap points);
      velocityAdjustment (Math_max (finiteVelocities points));
      linearityAdjustment (measureLinearity points) ]
    ++ match calculateAccelerations (finiteVelocities points) with
       | [] => []
       | a :: accels => [accelerationAdjustment (accelStdDevOf (a :: accels))]
       end
    ++ directionAdjustment (countDirectionChanges points) (List.length points).
Proof.
  intros Hlen.
  unfold guardedAdjustments, maxFiniteVelocity, accelerationDeviation,
    accelerationsOfTrace.
  rewrite <- finiteVelocities_steps, <- calculateAccelerations_steps,
    <- accelStdDevOf_deviation, <- countDirectionChanges_turns,
    <- (measureLinearity_linearity points) by lia.
  destruct (calculateAccelerations (finiteVelocities points)); reflexivity.
Qed.

(** C3, amended. For a trace of at least 15 samples the confidence is 0.5
    plus, in this order, the onset adjustment (first gap 0 ms: -0.3, under
    50 ms: -0.2, otherwise +0.1), the velocity adjustment (largest finite
    per-step velocity, distance over time, over 500: -0.25, otherwise
    +0.1), the linearity adjustment (R-squared style linearity of the x
    positions, clamped to [0,1], over 0.95: -0.3, over 0.7: -0.1,
    otherwise +0.2), the acceleration adjustment (population standard
    deviation of the absolute differences of consecutive finite
    velocities over 0.05: +0.2, over 0.01: +0.1, otherwise -0.15) -
    applied only when the trace yields at least one acceleration - and
    +0.15 when the direction changes (triples of samples whose two
    displacements are not zero and enclose an angle of cosine below 0.95)
    exceed 20% of the samples; the result is clamped to [0,1]; and
    [isHuman] holds exactly when the confidence exceeds 0.4, which is also
    exactly when the sum in exact arithmetic exceeds 0.40. *)
Theorem analyzePhysics_table (points : list MovementPoint) :
  (15 <= List.length points)%nat ->
  confidence (analyzePhysics points) = confidenceOf (guardedAdjustments points)
  /\ isHuman (analyzePhysics points) = (0.4 <? confidence (analyzePhysics points))%float
  /\ isHuman (analyzePhysics points) = (40 <? exactHundredths (guardedAdjustments points))
  /\ ((0 <=? confidence (analyzePhysics points))%float
      && (confidence (analyzePhysics points) <=? 1)%float) = true.
Proof.
  intros Hlen.
  rewrite (guardedAdjustments_read points Hlen).
  destruct (at_least_two_samples points Hlen) as (p0 & p1 & rest & Hshape).
  assert (Hfirst : firstn 2 points = [p0; p1]) by (subst points; reflexivity).
  assert (Hgap : firstGap points = (timestamp p1 - timestamp p0)%float)
    by (subst points; reflexivity).
  assert (Henough : (List.length points <? MIN_SAMPLES)%nat = false)
    by (apply Nat.ltb_ge; exact Hlen).
  clear Hshape Hlen.
  unfold analyzePhysics.
  rewrite Henough, Hfirst, Hgap. clear Henough Hfirst Hgap.
  unfold onsetAdjustment, velocityAdjustment, linearityAdjustment,
    accelerationAdjustment, directionAdjustment, gtb,
    MIN_MOVEMENT_TIME, VELOCITY_THRESHOLD, LINEARITY_THRESHOLD.
  cbv zeta.
  generalize (timestamp p1 - timestamp p0)%float as timeDiff.
  generalize (Math_max (finiteVelocities points)) as maxVelocity.
  generalize (measureLinearity points) as measured.
  generalize (number_of_nat (List.length points) * 0.2
              <? number_of_nat (countDirectionChanges points))%float as turning.
  generalize (countDirectionChanges points) as changes.
  generalize (sum (finiteVelocities points)
              / number_of_nat (List.length (finiteVelocities points)))%float
    as avgVelocity.
  destruct (calculateAccelerations (finiteVelocities points)) as [ | a accels];
    cbn [List.length Nat.ltb Nat.leb];
    [ | generalize (accelStdDevOf (a :: accels)) as accelStdDev ];
    intros;
    (destruct (timeDiff =? 0)%float; [ | destruct (timeDiff <? 50)%float ]);
    destruct (500 <? maxVelocity)%float;
    (destruct (0.95 <? measured)%float; [ | destruct (0.7 <? measured)%float ]);
    try (destruct (0.05 <? accelStdDev)%float; [ | destruct (0.01 <? accelStdDev)%float ]);
    destruct turning;
    vm_compute; repeat split.
Qed.

End PhysicsClassifier.

Section PhysicsExamples.
Import Num JS Gravity PhysicsSpec.

Lemma analyzePhysics_table_witness :
  (15 <= List.length Samples.uniformLine)%nat
  /\ confidence (analyzePhysics Samples.uniformLine)
     = confidenceOf (guardedAdjustments Samples.uniformLine).
Proof.
  split; [ vm_compute; lia | ].
  apply (analyzePhysics_table Samples.uniformLine). vm_compute. lia.
Defined.

(** C3, as stated, fails: on the burst trace only one step has a finite
    velocity, so there is no acceleration and the classifier applies no
    acceleration adjustment at all, where the claim has it take -0.15.  The
    classifier ends at 0.55 and says human; the five adjustments of the
    claim end at 0.40 and say not human. *)
Lemma acceleration_check_skipped :
  (15 <= List.length Samples.burstTrace)%nat
  /\ velocities (analyzePhysics Samples.burstTrace) = [0.014142135623730951%float]
  /\ accelerations (analyzePhysics Samples.burstTrace) = []
  /\ statedAdjustments Samples.burstTrace = [10; 10; -30; -15; 15]
  /\ guardedAdjustments Samples.burstTrace = [10; 10; -30; 15]
  /\ confidence (analyzePhysics Samples.burstTrace) = 0.54999999999999993%float
  /\ confidenceOf (statedAdjustments Samples.burstTrace) = 0.39999999999999997%float
  /\ confidence (analyzePhysics Samples.burstTrace)
     <> confidenceOf (statedAdjustments Samples.burstTrace)
  /\ isHuman (analyzePhysics Samples.burstTrace) = true
  /\ (0.4 <? confidenceOf (statedAdjustments Samples.burstTrace))%float = false.
Proof.
  repeat apply conj; try (vm_compute; reflexivity); try (vm_compute; lia);
    vm_compute; discriminate.
Qed.

(** Scenario C on evenly spaced samples: the classifier finds linearity 1
    and deviation 0 and says not human. *)
Lemma uniform_line_is_caught :
  measureLinearity Samples.uniformLine = 1%float
  /\ accelerationDeviation Samples.uniformLine = 0%float
  /\ confidence (analyzePhysics Samples.uniformLine) = 0.24999999999999997%float
  /\ isHuman (analyzePhysics Samples.uniformLine) = false.
Proof. repeat apply conj; vm_compute; reflexivity. Qed.

(** C8 at the uneven line: 20 samples on the line y = 0, every step at
    0.1 px/ms (so every gap is non-zero and the speed is constant), yet the
    linearity, measured against the sample index, is 0.91, not above 0.95;
    the confidence is 0.45 and the verdict is human. *)
Theorem uneven_line_passes :
  List.length Samples.unevenLine = 20%nat
  /\ Forall (fun p => y p = 0%float) Samples.unevenLine
  /\ finiteVelocities Samples.unevenLine = repeat 0.1%float 19
  /\ accelerationDeviation Samples.unevenLine = 0%float
  /\ measureLinearity Samples.unevenLine = 0.90998435747128248%float
  /\ (0.95 <? measureLinearity Samples.unevenLine)%float = false
  /\ confidence (analyzePhysics Samples.unevenLine) = 0.44999999999999996%float
  /\ (confidence (analyzePhysics Samples.unevenLine) <=? 0.4)%float = false
  /\ isHuman (analyzePhysics Samples.unevenLine) = true.
Proof.
  repeat apply conj; try (vm_compute; reflexivity).
  vm_compute. repeat constructor.
Qed.

(** The guard [ssTot === 0] of [measureLinearity] misses a trace whose x
    are all equal when their mean is not computed exactly: fifteen samples
    at x = 0.1 sum to 1.5000000000000002, the mean is not 0.1, and
    the linearity comes out as 0 instead of 1. *)
Lemma equal_x_rounding :
  Forall (fun p => x p = 0.1%float) Samples.verticalTrace
  /\ measureLinearity Samples.verticalTrace = 0%float
  /\ isHuman (analyzePhysics Samples.verticalTrace) = true.
Proof.
  repeat apply conj; try (vm_compute; reflexivity).
  vm_compute. repeat constructor.
Qed.

End PhysicsExamples.

(* ================================================================== *)
(** * Session and challenge *)

Section SessionClaims.
Import Num Backend JSString Gate Session Observe.

Lemma truthy_trim (s : string) : trim s <> ""%string -> truthy (trim s) = true.
Proof. destruct (trim s); [congruence | reflexivity]. Qed.

Lemma trim_nonempty (s : string) : trim s <> ""%string -> (s =? "")%string = false.
Proof.
  intros H. apply String.eqb_neq. intros ->. apply H. reflexivity.
Qed.

(** The score does not read the capture time, which the client leaves out
    of the telemetry it sends. *)
Lemma CalculateRisk_sent (t : TelemetryData) :
  CalculateRisk
    {| Dynamics := Dynamics t; MousePath := MousePath t;
       EntropyScore := EntropyScore t; SessionDuration := SessionDuration t;
       CapturedAt := 0 |}
  = CalculateRisk t.
Proof. reflexivity. Qed.

(** The client posts challenge answers to a path the server has not
    registered; the handler sits one segment higher. *)
Lemma challenge_route_unregistered :
  lookupRoute POST (baseURL ++ "/challenge/submit")%string routes = None
  /\ exists h, lookupRoute POST (baseURL ++ "/challenge")%string routes = Some h
               /\ forall c body eventLog,
                    h c body eventLog = SubmitChallengeHandler c body eventLog.
Proof.
  split; [reflexivity | ].
  eexists. split; [reflexivity | ]. intros. reflexivity.
Qed.

(** C5, as stated, fails: completing a challenge emits no event.  From the
    challenge step with a six-digit code, the session ends in a terminal
    step and the log still holds the one event of the login evaluation;
    and the challenge handler itself, handed a request it accepts, returns
    the log as it was. *)
Lemma challenge_completion_logs_nothing :
  step (fst (Samples.challengedWith "123456")) = CHALLENGE
  /\ List.length (events (snd (Samples.challengedWith "123456"))) = 1%nat
  /\ isTerminal
       (step (fst (advance Samples.clock (SubmitChallenge 1763821850000)
                     (Samples.challengedWith "123456")))) = true
  /\ snd (advance Samples.clock (SubmitChallenge 1763821850000)
            (Samples.challengedWith "123456"))
     = snd (Samples.challengedWith "123456")
  /\ handleChallengeSubmit (delivered Samples.clock) 1763821850000
       (fst (Samples.challengedWith "123456"))
       (snd (Samples.challengedWith "123456"))
     = (setLoading false
          (setStep SUCCESS
             (setLoading true (setError None (fst (Samples.challengedWith "123456"))))),
        snd (Samples.challengedWith "123456")).
Proof. repeat apply conj; vm_compute; reflexivity. Qed.

(** C5, amended. A login evaluation emits exactly one event: the log
    after it is the log before it with one [LogEvent]; the event carries
    the trust score computed for the snapshot, which is also the score
    the gate keeps; its outcome is "success" when the gate moves to
    SUCCESS and "challenged" when it moves to CHALLENGE.  Completing a
    challenge, accepted or not, leaves the log as it was. *)
Theorem login_evaluation_logs_once
    (c : Context) (telemetry : TelemetryData) (st : GateState) (eventLog : EventLog) :
  trim (username st) <> ""%string -> trim (password st) <> ""%string ->
  (exists e,
     snd (advance c (SubmitLogin telemetry) (st, eventLog)) = LogEvent e eventLog
     /\ TrustScore e = CalculateRisk telemetry
     /\ riskResponse (fst (advance c (SubmitLogin telemetry) (st, eventLog)))
        = Some {| rr_TrustScore := TrustScore e;
                  RequiresChallenge := (TrustScore e <? 70)%float |}
     /\ ((step (fst (advance c (SubmitLogin telemetry) (st, eventLog))) = SUCCESS
          /\ Status e = "success"%string /\ (TrustScore e <? 70)%float = false)
         \/ (step (fst (advance c (SubmitLogin telemetry) (st, eventLog))) = CHALLENGE
             /\ Status e = "challenged"%string /\ (TrustScore e <? 70)%float = true)))
  /\ (forall now, snd (advance c (SubmitChallenge now) (st, eventLog)) = eventLog)
  /\ (forall body, fst (SubmitChallengeHandler c body eventLog) = eventLog).
Proof.
  intros Huser Hpass. split; [ | split ].
  - unfold advance, handleLoginSubmit, verifyBehavior, wire, serve.
    cbn [username password setLoading setError setRefs].
    rewrite (truthy_trim _ Huser), (truthy_trim _ Hpass). cbn [negb orb].
    change (lookupRoute POST (baseURL ++ "/verify")%string routes)
      with (Some VerifyBehaviorHandler).
    unfold VerifyBehaviorHandler, bindVerify. cbn [vr_UserID vr_Telemetry].
    rewrite (trim_nonempty _ Huser). cbn [vr_UserID vr_Telemetry].
    rewrite !CalculateRisk_sent.
    unfold CHALLENGE_THRESHOLD.
    eexists. split; [ cbn [snd]; reflexivity | ].
    cbn [TrustScore Status]. split; [reflexivity | ].
    destruct (CalculateRisk telemetry <? 70)%float; cbn; split; try reflexivity.
    + right. repeat split.
    + left. repeat split.
  - intros now. unfold advance, handleChallengeSubmit, submitChallenge, wire, serve.
    change (lookupRoute POST (baseURL ++ "/challenge/submit")%string routes)
      with (@None Handler).
    cbn [otp userIdRef setLoading setError].
    destruct (negb (truthy (trim (otp st)))); [reflexivity | ].
    destruct (String.length (otp st) <? 4)%nat; reflexivity.
  - intros body. unfold SubmitChallengeHandler.
    destruct (bindChallenge body) as [req | ]; [ destruct (Success req) | ]; reflexivity.
Qed.

Lemma login_evaluation_logs_once_witness :
  exists e,
    snd (advance Samples.clock (SubmitLogin Samples.scenarioA_steady)
           (Samples.loginForm, initialLog))
    = LogEvent e initialLog
    /\ TrustScore e = CalculateRisk Samples.scenarioA_steady.
Proof.
  destruct (login_evaluation_logs_once Samples.clock Samples.scenarioA_steady
              Samples.loginForm initialLog) as [[e (Hlog & Hscore & _)] _].
  - vm_compute. discriminate.
  - vm_compute. discriminate.
  - exists e. split; [exact Hlog | exact Hscore].
Defined.

End SessionClaims.

Section ChallengeAcceptance.
Import Num Backend JSString Gate Session Observe.

Lemma initialLog_is_new : NewEventLog 50 = Some initialLog.
Proof. reflexivity. Qed.

(** C7, as stated, fails: a code of four blanks has length 4, yet the
    gate sends nothing for it; it stays on the challenge step with the
    message "OTP is required". *)
Lemma blank_code_not_submitted :
  (4 <= String.length (otp (fst (Samples.challengedWith "    "))))%nat
  /\ snd (handleChallengeSubmit (recording (OKChallenge accepted)) 1763821850000
            (fst (Samples.challengedWith "    ")) [])
     = []
  /\ step (fst (handleChallengeSubmit (delivered Samples.clock) 1763821850000
                  (fst (Samples.challengedWith "    "))
                  (snd (Samples.challengedWith "    "))))
     = CHALLENGE
  /\ error (fst (handleChallengeSubmit (delivered Samples.clock) 1763821850000
                   (fst (Samples.challengedWith "    "))
                   (snd (Samples.challengedWith "    "))))
     = Some "OTP is required"%string.
Proof.
  repeat apply conj; vm_compute; reflexivity.
Qed.

(** C7, amended. The challenge handler answers a request that binds with
    "accepted" exactly when the request's [success] field is true, and
    reads nothing else of it.  For every entered code of length at least 4
    that is not made of white space only, the gate sends exactly one
    request, to the challenge-submission path, with the stored user id and
    [success = true] - the code itself is not in it - and when that request
    is handed to the challenge handler the gate moves to SUCCESS. *)
Theorem challenge_decided_by_client
    (c : Context) (req : ChallengeRequest) (eventLog : EventLog)
    (answer : Response) (now : Z) (st : GateState) :
  cr_UserID req <> ""%string ->
  (4 <= String.length (otp st))%nat ->
  trim (otp st) <> ""%string ->
  userIdRef st <> ""%string ->
  (exists r,
     SubmitChallengeHandler c (ChallengeJSON req) eventLog = (eventLog, OKChallenge r)
     /\ r = (if Success req then accepted else rejected)
     /\ (cs_Status r = "accepted"%string <-> Success req = true))
  /\ snd (handleChallengeSubmit (recording answer) now st [])
     = [ ((baseURL ++ "/challenge/submit")%string,
          ChallengeJSON {| cr_UserID := userIdRef st; Success := true;
                           cr_Timestamp := now |}) ]
  /\ step (fst (handleChallengeSubmit (delivered c) now st eventLog)) = SUCCESS.
Proof.
  intros Hreq Hlen Hcode Hid. repeat apply conj.
  - unfold SubmitChallengeHandler, bindChallenge.
    apply String.eqb_neq in Hreq. rewrite Hreq.
    destruct (Success req); eexists; (split; [reflexivity | split; [reflexivity | ]]);
      cbn; split; intros H; try reflexivity; discriminate.
  - unfold handleChallengeSubmit, submitChallenge, recording.
    cbn [otp userIdRef setLoading setError].
    rewrite (truthy_trim _ Hcode). cbn [negb].
    replace (String.length (otp st) <? 4)%nat with false
      by (symmetry; apply Nat.ltb_ge; exact Hlen).
    destruct answer as [ r | r | evs n | s m | s v m | e | ];
      cbn [resolves asChallengeResponse cs_Status]; try reflexivity.
    + destruct (cs_Status r =? "accepted")%string; reflexivity.
    + destruct (s =? "accepted")%string; reflexivity.
    + destruct (m =? "accepted")%string; reflexivity.
  - unfold handleChallengeSubmit, submitChallenge, delivered,
      SubmitChallengeHandler, bindChallenge.
    cbn [otp userIdRef setLoading setError cr_UserID Success].
    rewrite (truthy_trim _ Hcode). cbn [negb].
    replace (String.length (otp st) <? 4)%nat with false
      by (symmetry; apply Nat.ltb_ge; exact Hlen).
    apply String.eqb_neq in Hid. rewrite Hid. reflexivity.
Qed.

Lemma challenge_decided_by_client_witness :
  snd (handleChallengeSubmit (recording NotFound) 1763821850000
         (fst (Samples.challengedWith "123456")) [])
  = [ ((baseURL ++ "/challenge/submit")%string,
       ChallengeJSON {| cr_UserID := "user"; Success := true;
                        cr_Timestamp := 1763821850000 |}) ]
  /\ step (fst (handleChallengeSubmit (delivered Samples.clock) 1763821850000
                  (fst (Samples.challengedWith "123456"))
                  (snd (Samples.challengedWith "123456"))))
     = SUCCESS.
Proof.
  destruct (challenge_decided_by_client Samples.clock
              {| cr_UserID := "user"; Success := true; cr_Timestamp := 1763821850000 |}
              (snd (Samples.challengedWith "123456")) NotFound 1763821850000
              (fst (Samples.challengedWith "123456")))
    as (_ & Hsent & Hstep).
  - discriminate.
  - vm_compute. lia.
  - vm_compute. discriminate.
  - vm_compute. discriminate.
  - split; [exact Hsent | exact Hstep].
Defined.

End ChallengeAcceptance.

(* ================================================================== *)
(** * More on binary64 order: clamping *)

Section Clamping.
Import JS.

Lemma ltb_leb (a b : float) : (a <? b)%float = true -> (a <=? b)%float = true.
Proof.
  rewrite ltb_spec, leb_spec. unfold SpecFloat.SFltb, SpecFloat.SFleb.
  destruct (SpecFloat.SFcompare (Prim2SF a) (Prim2SF b)) as [[ | | ] | ];
    congruence.
Qed.

Lemma ltb_not_nan_l (a b : float) : (a <? b)%float = true -> is_nan a = false.
Proof.
  unfold is_nan. rewrite ltb_spec, eqb_spec.
  unfold SpecFloat.SFltb, SpecFloat.SFeqb.
  destruct (Prim2SF a) as [ [ | ] | [ | ] | | [ | ] m e ], (Prim2SF b);
    simpl; try discriminate; try reflexivity;
    rewrite ?Z.compare_refl, ?Pos.compare_cont_refl; reflexivity.
Qed.

Variables lo hi : float.
Hypothesis lo_number : is_nan lo = false.
Hypothesis hi_number : is_nan hi = false.
Hypothesis lo_le_hi : (lo <=? hi)%float = true.
Hypothesis lo_le_lo : (lo <=? lo)%float = true.
Hypothesis hi_le_hi : (hi <=? hi)%float = true.
Hypothesis max_lo : max2 neg_infinity lo = lo.
Hypothesis min_hi : min2 infinity hi = hi.

Lemma min2_cases (v : float) :
  is_nan v = false ->
  min2 hi v = hi \/ (min2 hi v = v /\ (v <=? hi)%float = true).
Proof.
  intros Hv. unfold min2. rewrite hi_number, Hv. simpl orb. cbv iota.
  destruct (hi <? v)%float eqn:Hhv; [left; reflexivity | ].
  assert (Hvhi : (v <=? hi)%float = true) by (apply leb_of_not_ltb; assumption).
  destruct (v <? hi)%float; [right; split; [reflexivity | exact Hvhi] | ].
  destruct (get_sign hi); [left; reflexivity | right; split; [reflexivity | exact Hvhi]].
Qed.

Lemma max2_cases (m : float) :
  is_nan m = false ->
  max2 lo m = lo \/ (max2 lo m = m /\ (lo <=? m)%float = true).
Proof.
  intros Hm. unfold max2. rewrite lo_number, Hm. simpl orb. cbv iota.
  destruct (lo <? m)%float eqn:Hlm;
    [right; split; [reflexivity | apply ltb_leb; exact Hlm] | ].
  destruct (m <? lo)%float eqn:Hml; [left; reflexivity | ].
  destruct (get_sign lo); [ | left; reflexivity].
  right. split; [reflexivity | ]. apply leb_of_not_ltb; assumption.
Qed.

(** [Math.max(lo, Math.min(hi, v))] is [lo], [hi], or [v] lying between. *)
Lemma clamp_cases (v : float) :
  is_nan v = false ->
  Math_max [lo; Math_min [hi; v]] = lo
  \/ Math_max [lo; Math_min [hi; v]] = hi
  \/ (Math_max [lo; Math_min [hi; v]] = v
      /\ (lo <=? v)%float = true /\ (v <=? hi)%float = true).
Proof.
  intros Hv. unfold Math_max, Math_min. cbn [fold_left].
  rewrite max_lo, min_hi.
  destruct (min2_cases v Hv) as [-> | [-> Hvhi]].
  - destruct (max2_cases hi hi_number) as [-> | [-> _]];
      [left | right; left]; reflexivity.
  - destruct (max2_cases v Hv) as [-> | [-> Hlv]]; [left; reflexivity | ].
    right; right. repeat split; assumption.
Qed.

Lemma clamp_range (v : float) :
  is_nan v = false ->
  (lo <=? Math_max [lo; Math_min [hi; v]])%float = true
  /\ (Math_max [lo; Math_min [hi; v]] <=? hi)%float = true.
Proof.
  intros Hv. destruct (clamp_cases v Hv) as [-> | [-> | (-> & H1 & H2)]];
    split; assumption.
Qed.

Lemma clamp_nan (v : float) :
  is_nan v = true -> is_nan (Math_max [lo; Math_min [hi; v]]) = true.
Proof.
  intros Hv. unfold Math_max, Math_min. cbn [fold_left].
  rewrite max_lo, min_hi.
  unfold min2. rewrite Hv, orb_true_r.
  unfold max2. change (is_nan nan) with true. rewrite orb_true_r. reflexivity.
Qed.

End Clamping.

(* ================================================================== *)
(** * More on the risk engine *)

Section RiskEngineFacts.
Import Num Backend Server.

(** Every test of [CalculateRisk] that reads the snapshot, as a variable. *)
Ltac abstract_tests s :=
  generalize (EntropyScore s <? 40)%float as e1, (70 <? EntropyScore s)%float as e2;
  generalize (calculateVariance (FlightTimes (Dynamics s)) <? 100)%float as f1,
    (1000 <? calculateVariance (FlightTimes (Dynamics s)))%float as f2;
  generalize (calculateVariance (DwellTimes (Dynamics s)) <? 50)%float as d1;
  generalize (calculateMouseAcceleration (MousePath s) <? 1.0)%float as m1,
    (50 <? calculateMouseAcceleration (MousePath s))%float as m2;
  generalize (len (FlightTimes (Dynamics s)) >? 2) as f0;
  generalize (len (DwellTimes (Dynamics s)) >? 2) as d0;
  generalize (SessionDuration s <? 2000) as s1, (SessionDuration s >? 300000) as s2;
  generalize (len (Keys (Dynamics s)) <? 3) as k1;
  generalize (len (MousePath s) >? 10) as m0, (len (MousePath s) <? 5) as p1,
    (len (MousePath s) >? 100) as p2;
  intros.

(** Case split along the branches, skipping tests a branch does not reach. *)
Ltac split_tests e1 e2 f0 f1 f2 d0 d1 s1 s2 m0 m1 m2 k1 p1 p2 :=
  (destruct e1; [ | destruct e2 ]);
  (destruct f0; [ destruct f1; [ | destruct f2 ] | ]);
  (destruct d0; [ destruct d1 | ]);
  (destruct s1; [ | destruct s2 ]);
  (destruct m0; [ destruct m1; [ | destruct m2 ] | ]);
  destruct k1;
  (destruct p1; [ | destruct p2 ]).

Lemma CalculateRisk_levels (s : TelemetryData) :
  In (CalculateRisk s) scoreLevels.
Proof.
  unfold CalculateRisk, gtb. cbv zeta. abstract_tests s. clear s.
  split_tests e1 e2 f0 f1 f2 d0 d1 s1 s2 m0 m1 m2 k1 p1 p2;
    vm_compute; repeat (first [left; reflexivity | right]).
Qed.

Lemma scoreLevels_range (r : float) :
  In r scoreLevels ->
  is_nan r = false /\ (0 <=? r)%float = true /\ (r <=? 100)%float = true.
Proof.
  intros H. vm_compute in H.
  repeat (destruct H as [<- | H]; [repeat split; reflexivity | ]).
  destruct H.
Qed.

(** X1. Whatever the snapshot holds - a NaN entropy score included - the
    trust score is a number, one of the multiples of 5 from 0 to 100. *)
Theorem CalculateRisk_range (s : TelemetryData) :
  In (CalculateRisk s) scoreLevels
  /\ is_nan (CalculateRisk s) = false
  /\ (0 <=? CalculateRisk s)%float = true
  /\ (CalculateRisk s <=? 100)%float = true.
Proof.
  split; [apply CalculateRisk_levels | ].
  apply scoreLevels_range, CalculateRisk_levels.
Qed.

(** X2. Two signals settle the outcome alone: a snapshot whose entropy
    score is below 40, or whose flight times (three or more) have a variance
    below 100, scores below 70 whatever else it holds, so a challenge is
    required. *)
Theorem robotic_signal_forces_challenge (s : TelemetryData) :
  (EntropyScore s <? 40)%float = true
  \/ (3 <= len (FlightTimes (Dynamics s))
      /\ (calculateVariance (FlightTimes (Dynamics s)) <? 100)%float = true) ->
  (CalculateRisk s <? 70)%float = true.
Proof.
  intros [Hentropy | [Hcount Hflight]]; unfold CalculateRisk, gtb; cbv zeta.
  - rewrite Hentropy. abstract_tests s. clear Hentropy s.
    split_tests e1 e2 f0 f1 f2 d0 d1 s1 s2 m0 m1 m2 k1 p1 p2; reflexivity.
  - replace (len (FlightTimes (Dynamics s)) >? 2) with true
      by (symmetry; apply Z.gtb_lt; lia).
    rewrite Hflight. abstract_tests s. clear Hcount Hflight s.
    split_tests e1 e2 f0 f1 f2 d0 d1 s1 s2 m0 m1 m2 k1 p1 p2; reflexivity.
Qed.

Lemma robotic_signal_forces_challenge_witness :
  (CalculateRisk Samples.scenarioB <? 70)%float = true.
Proof.
  apply (robotic_signal_forces_challenge Samples.scenarioB).
  left. vm_compute. reflexivity.
Defined.

End RiskEngineFacts.

Section PointerAcceleration.
Import Num Backend.

Lemma accelMagnitude_same_time (t : Z) (p1 p2 p3 : MousePoint) :
  Time p1 = t -> Time p2 = t -> accelMagnitude p1 p2 p3 = None.
Proof.
  intros H1 H2. unfold accelMagnitude. rewrite H1, H2, Z.sub_diag. reflexivity.
Qed.

Lemma accelerationsOf_same_time (t : Z) (path : list MousePoint) :
  Forall (fun p => Time p = t) path -> accelerationsOf path = [].
Proof.
  induction path as [ | p1 rest IH]; intros Hall; [reflexivity | ].
  inversion Hall as [ | ? ? H1 Hrest]; subst.
  specialize (IH Hrest). cbn [accelerationsOf].
  destruct rest as [ | p2 [ | p3 rest']]; try reflexivity.
  inversion Hrest as [ | ? ? H2 _]; subst.
  rewrite (accelMagnitude_same_time (Time p1) p1 p2 p3 eq_refl H2).
  exact IH.
Qed.

(** X3. Triples with a zero time step are skipped, not divided by: a
    pointer path whose samples all carry one timestamp yields no
    acceleration at all, its acceleration variance is 0, and the risk
    engine reads it as linear movement (variance below 1.0). *)
Theorem frozen_clock_reads_as_linear (t : Z) (path : list MousePoint) :
  Forall (fun p => Time p = t) path ->
  accelerationsOf path = []
  /\ calculateMouseAcceleration path = 0%float
  /\ (calculateMouseAcceleration path <? 1.0)%float = true.
Proof.
  intros Hall. pose proof (accelerationsOf_same_time t path Hall) as Hnone.
  assert (Hzero : calculateMouseAcceleration path = 0%float).
  { unfold calculateMouseAcceleration. rewrite Hnone.
    destruct (len path <? 3); reflexivity. }
  rewrite Hzero. split; [exact Hnone | split; reflexivity].
Qed.

Lemma frozen_clock_reads_as_linear_witness :
  calculateMouseAcceleration MoreSamples.frozenClockPath = 0%float.
Proof.
  apply (frozen_clock_reads_as_linear 1000 MoreSamples.frozenClockPath).
  vm_compute. repeat constructor.
Defined.

End PointerAcceleration.

(* ================================================================== *)
(** * More on the event log and the server *)

Section ServerFacts.
Import Num Backend Audit Server.

Lemma Forall_skipn {A} (P : A -> Prop) (n : nat) (l : list A) :
  Forall P l -> Forall P (skipn n l).
Proof.
  revert l. induction n as [ | n IH]; intros l H; [exact H | ].
  destruct l as [ | a l]; [constructor | ].
  inversion H; subst. cbn [skipn]. apply IH. assumption.
Qed.

(** X4. A log made by [NewEventLog cap] holds, after any run of
    insertions, the [cap] most recent events and no more; [GetEvents]
    lists them newest first.  With [cap = 0] every event is dropped at
    once. *)
Theorem event_log_capacity (cap : Z) (el : EventLog) (es : list SecurityEvent) :
  NewEventLog cap = Some el ->
  GetEvents (record_all es el) = mostRecentFirst (Z.to_nat cap) es
  /\ len (events (record_all es el)) <= cap
  /\ (cap = 0 -> GetEvents (record_all es el) = []).
Proof.
  unfold NewEventLog. destruct (Z.ltb_spec cap 0) as [ | Hcap]; [discriminate | ].
  intros [= <-].
  assert (Hlist : GetEvents (record_all es {| events := []; maxSize := cap |})
                  = mostRecentFirst (Z.to_nat cap) es).
  { rewrite GetEvents_rev, events_record_all by exact Hcap.
    unfold mostRecentFirst. rewrite firstn_rev. reflexivity. }
  repeat split.
  - exact Hlist.
  - rewrite events_record_all by exact Hcap. unfold len.
    rewrite length_skipn. lia.
  - intros ->. rewrite Hlist. reflexivity.
Qed.

Lemma event_log_capacity_witness :
  GetEvents (record_all Samples.events51 {| events := []; maxSize := 3 |})
  = mostRecentFirst 3 Samples.events51.
Proof.
  apply (event_log_capacity 3 {| events := []; maxSize := 3 |} Samples.events51).
  reflexivity.
Defined.

(** X5. The events endpoint answers with the stored events newest first
    and their number, and leaves the log as it was. *)
Theorem events_endpoint (c : Context) (body : Payload) (eventLog : EventLog) :
  serve c GET "/api/v1/admin/events" body eventLog
  = (eventLog, OKEvents (rev (events eventLog)) (len (events eventLog))).
Proof.
  change (serve c GET "/api/v1/admin/events" body eventLog)
    with (GetEventsHandler c body eventLog).
  unfold GetEventsHandler. rewrite GetEvents_rev. unfold len.
  rewrite length_rev. reflexivity.
Qed.

(** The event the verify handler logs for a request. *)
Lemma serve_cases (c : Context) (m : Method) (path : string) (body : Payload)
    (eventLog : EventLog) :
  fst (serve c m path body eventLog) = eventLog
  \/ (m = POST /\ path = "/api/v1/verify"%string
      /\ exists req,
           bindVerify body = Some req
           /\ serve c m path body eventLog
              = VerifyBehaviorHandler c (VerifyJSON req) eventLog
           /\ exists e,
                fst (serve c m path body eventLog) = LogEvent e eventLog
                /\ TrustScore e = CalculateRisk (vr_Telemetry req)
                /\ UserID e = vr_UserID req
                /\ Status e = (if (CalculateRisk (vr_Telemetry req) <? 70)%float
                               then "challenged" else "success")%string).
Proof.
  unfold serve, routes. cbn [lookupRoute].
  destruct m; cbn [method_eqb andb].
  - destruct (path =? "/api/v1/health")%string; [left; reflexivity | ].
    destruct (path =? "/api/v1/admin/events")%string; [left; reflexivity | ].
    destruct (path =? "/")%string; left; reflexivity.
  - destruct (path =? "/api/v1/verify")%string eqn:Hverify.
    + apply String.eqb_eq in Hverify.
      destruct (bindVerify body) as [req | ] eqn:Hbind;
        [ | left; unfold VerifyBehaviorHandler; rewrite Hbind; reflexivity].
      right. repeat split; [exact Hverify | ].
      exists req. split; [reflexivity | ].
      assert (Hsame : bindVerify (VerifyJSON req) = Some req).
      { destruct body as [req' | | ]; cbn in Hbind; try discriminate.
        destruct (vr_UserID req' =? "")%string eqn:Hid; [discriminate | ].
        injection Hbind as <-. cbn. rewrite Hid. reflexivity. }
      unfold VerifyBehaviorHandler. rewrite Hbind, Hsame.
      split; [reflexivity | ].
      eexists. cbn [fst]. split; [reflexivity | ]. cbn. repeat split.
    + destruct (path =? "/api/v1/challenge")%string.
      * left. unfold SubmitChallengeHandler.
        destruct (bindChallenge body) as [req | ]; [destruct (Success req) | ];
          reflexivity.
      * left. reflexivity.
Qed.

(** X6. Only a POST to the verify path with a body that binds changes the
    log, by exactly one [LogEvent]; every other request - any GET, the
    challenge path, an unknown path, a body that does not bind - leaves
    it untouched. *)
Theorem only_verify_logs (c : Context) (m : Method) (path : string)
    (body : Payload) (eventLog : EventLog) :
  fst (serve c m path body eventLog) = eventLog
  \/ (m = POST /\ path = "/api/v1/verify"%string
      /\ exists req e,
           bindVerify body = Some req
           /\ fst (serve c m path body eventLog) = LogEvent e eventLog
           /\ TrustScore e = CalculateRisk (vr_Telemetry req)).
Proof.
  destruct (serve_cases c m path body eventLog)
    as [Hsame | (Hm & Hpath & req & Hbind & _ & e & Hlog & Hscore & _)].
  - left. exact Hsame.
  - right. repeat split; [exact Hm | exact Hpath | ].
    exists req, e. repeat split; assumption.
Qed.

End ServerFacts.

Section ServerInvariant.
Import Num Backend Audit Server Admin.

Lemma bindVerify_user (body : Payload) (req : VerifyRequest) :
  bindVerify body = Some req -> vr_UserID req <> ""%string.
Proof.
  destruct body as [req' | | ]; cbn; try discriminate.
  destruct (vr_UserID req' =? "")%string eqn:Hid; [discriminate | ].
  intros [= <-]. apply String.eqb_neq. exact Hid.
Qed.

Lemma invariant_LogEvent (e : SecurityEvent) (eventLog : EventLog) :
  wellFormedEvent e -> invariant eventLog -> invariant (LogEvent e eventLog).
Proof.
  intros He (Hcap & Hlen & Hall). unfold invariant.
  rewrite maxSize_LogEvent, events_LogEvent by lia. rewrite Hcap.
  repeat split.
  - rewrite length_skipn. lia.
  - apply Forall_skipn, Forall_app. split; [exact Hall | ].
    constructor; [exact He | constructor].
Qed.

Lemma invariant_logAfter (eventLog : EventLog) (r : Request) :
  invariant eventLog -> invariant (logAfter eventLog r).
Proof.
  intros Hinv. unfold logAfter.
  destruct (serve_cases (rq_context r) (rq_method r) (rq_path r) (rq_body r) eventLog)
    as [-> | (_ & _ & req & Hbind & _ & e & -> & Hscore & Huser & Hstatus)];
    [exact Hinv | ].
  apply invariant_LogEvent; [ | exact Hinv].
  unfold wellFormedEvent. rewrite Hscore, Hstatus, Huser.
  repeat split; [apply CalculateRisk_levels | ].
  apply (bindVerify_user _ _ Hbind).
Qed.

Lemma invariant_logAfterAll (rs : list Request) (eventLog : EventLog) :
  invariant eventLog -> invariant (logAfterAll rs eventLog).
Proof.
  revert eventLog. induction rs as [ | r rs IH]; intros eventLog Hinv;
    [exact Hinv | ].
  cbn [logAfterAll fold_left]. apply IH, invariant_logAfter, Hinv.
Qed.

Lemma invariant_initial : invariant initialLog.
Proof. repeat split; [cbn; lia | constructor]. Qed.

(** X7. Whatever requests the server is sent, in whatever number and
    order, its log never holds more than 50 events, and every event in it
    has a non-empty user id, a score among the multiples of 5 from 0 to
    100, and the status "challenged" when that score is below 70 and
    "success" otherwise - never "blocked". *)
Theorem server_log_invariant (rs : list Request) :
  (List.length (events (logAfterAll rs initialLog)) <= 50)%nat
  /\ Forall wellFormedEvent (events (logAfterAll rs initialLog))
  /\ Forall (fun e => Status e <> "blocked"%string)
       (events (logAfterAll rs initialLog)).
Proof.
  destruct (invariant_logAfterAll rs initialLog invariant_initial)
    as (_ & Hlen & Hall).
  repeat split; [exact Hlen | exact Hall | ].
  apply (Forall_impl _ (P := wellFormedEvent)); [ | exact Hall].
  intros e (_ & Hstatus & _). rewrite Hstatus.
  destruct (TrustScore e <? 70)%float; discriminate.
Qed.

Lemma level_label (r : float) :
  In r scoreLevels ->
  (getStatusLabel r = "SAFE"%string <-> (r <? 70)%float = false)
  /\ (getStatusColor r = "#4CAF50"%string <-> (r <? 70)%float = false).
Proof.
  intros H. vm_compute in H.
  repeat (destruct H as [<- | H];
          [vm_compute; repeat split; intros; (reflexivity || discriminate) | ]).
  destruct H.
Qed.

(** X8. The dashboard and the server agree: for every event of a log the
    server has produced, the dashboard labels the score SAFE, and colours
    it green, exactly when the event's status is "success". *)
Theorem dashboard_label_matches_status (rs : list Request) (e : SecurityEvent) :
  In e (events (logAfterAll rs initialLog)) ->
  (getStatusLabel (TrustScore e) = "SAFE"%string <-> Status e = "success"%string)
  /\ (getStatusColor (TrustScore e) = "#4CAF50"%string <-> Status e = "success"%string).
Proof.
  intros Hin.
  destruct (invariant_logAfterAll rs initialLog invariant_initial)
    as (_ & _ & Hall).
  rewrite Forall_forall in Hall. destruct (Hall e Hin) as (Hlevel & Hstatus & _).
  destruct (level_label _ Hlevel) as [Hlabel Hcolor].
  rewrite Hlabel, Hcolor, Hstatus.
  destruct (TrustScore e <? 70)%float; split; split; intros;
    (reflexivity || discriminate).
Qed.

Lemma dashboard_label_matches_status_witness :
  exists e,
    nth_error (events (logAfterAll MoreSamples.run initialLog)) 1 = Some e
    /\ (getStatusLabel (TrustScore e) = "SAFE"%string <-> Status e = "success"%string).
Proof.
  eexists. split; [vm_compute; reflexivity | ].
  apply (dashboard_label_matches_status MoreSamples.run).
  vm_compute. right. left. reflexivity.
Defined.

Lemma threat_or_success (l : list SecurityEvent) :
  Forall wellFormedEvent l ->
  (List.length (filter isThreat l) + List.length (filter isSuccess l))%nat
  = List.length l.
Proof.
  induction 1 as [ | e l (_ & Hstatus & _) _ IH]; [reflexivity | ].
  cbn [filter]. unfold isThreat at 1, isSuccess at 1. rewrite Hstatus.
  destruct (TrustScore e <? 70)%float; cbn; lia.
Qed.

(** X9. On the events of any log the server has produced, as the events
    endpoint lists them, the dashboard's total is the number of stored
    events, and its "threats blocked" together with the successful logins
    make up that total. *)
Theorem dashboard_counts (rs : list Request) :
  let listed := GetEvents (logAfterAll rs initialLog) in
  totalLogins (calculateStats listed)
  = List.length (events (logAfterAll rs initialLog))
  /\ (threatsBlocked (calculateStats listed)
      + List.length (filter isSuccess listed))%nat
     = totalLogins (calculateStats listed).
Proof.
  cbv zeta. rewrite GetEvents_rev.
  destruct (invariant_logAfterAll rs initialLog invariant_initial)
    as (_ & _ & Hall).
  apply Forall_rev in Hall.
  pose proof (threat_or_success _ Hall) as Hsum.
  rewrite length_rev in Hsum.
  unfold calculateStats.
  destruct (rev (events (logAfterAll rs initialLog))) as [ | e l] eqn:Hrev.
  - cbn. cbn in Hsum. split; [ | reflexivity].
    apply (f_equal (@List.length _)) in Hrev. rewrite length_rev in Hrev.
    cbn in Hrev. lia.
  - rewrite <- Hrev in *. 
    replace (List.length (rev (events (logAfterAll rs initialLog))) =? 0)%nat
      with false
      by (symmetry; apply Nat.eqb_neq; rewrite Hrev; cbn; lia).
    cbn [totalLogins threatsBlocked]. rewrite length_rev. split; [reflexivity | ].
    exact Hsum.
Qed.

End ServerInvariant.

(* ================================================================== *)
(** * More on the physics classifier *)

Section PhysicsFacts.
Import Num JS Gravity PhysicsSpec Verdict.

(** X10. The linearity measure is 0 for fewer than three points and
    otherwise lies in [0,1] - unless the ratio it clamps is NaN, which the
    clamp lets through. *)
Theorem measureLinearity_range (points : list MovementPoint) :
  ((List.length points < 3)%nat -> measureLinearity points = 0%float)
  /\ (is_nan (measureLinearity points) = true
      \/ ((0 <=? measureLinearity points)%float = true
          /\ (measureLinearity points <=? 1)%float = true)).
Proof.
  unfold measureLinearity. split.
  - intros Hfew. apply Nat.ltb_lt in Hfew. rewrite Hfew. reflexivity.
  - destruct (List.length points <? 3)%nat; [right; split; reflexivity | ].
    cbv zeta.
    match goal with
    | |- context [fold_left ?f ?l (0%float, 0%float)] =>
        destruct (fold_left f l (0%float, 0%float)) as [ssRes ssTot]
    end.
    destruct (ssTot =? 0)%float; [right; split; reflexivity | ].
    destruct (is_nan (1 - ssRes / ssTot)%float) eqn:Hnan.
    + left. apply clamp_nan; [reflexivity | reflexivity | exact Hnan].
    + right. apply clamp_range; try reflexivity. exact Hnan.
Qed.

Lemma finiteVelocities_finite (points : list MovementPoint) :
  Forall (fun v => is_finite v = true) (finiteVelocities points).
Proof.
  induction points as [ | p0 rest IH]; [constructor | ].
  cbn [finiteVelocities]. destruct rest as [ | p1 rest']; [constructor | ].
  unfold isFinite. destruct (is_finite (calculateVelocity p0 p1)) eqn:Hfin;
    [constructor; assumption | assumption].
Qed.

Lemma finiteVelocities_length (points : list MovementPoint) :
  (List.length (finiteVelocities points) <= List.length points - 1)%nat.
Proof.
  induction points as [ | p0 rest IH]; [cbn; lia | ].
  cbn [finiteVelocities]. destruct rest as [ | p1 rest']; [cbn; lia | ].
  destruct (isFinite (calculateVelocity p0 p1)); cbn [List.length] in *; lia.
Qed.

Lemma calculateAccelerations_length (vs : list float) :
  List.length (calculateAccelerations vs) = (List.length vs - 1)%nat.
Proof.
  induction vs as [ | v0 rest IH]; [reflexivity | ].
  cbn [calculateAccelerations]. destruct rest as [ | v1 rest']; [reflexivity | ].
  cbn [List.length] in *. lia.
Qed.

(** The classifier's case split: every test of [analyzePhysics] that reads
    the trace, once the trace is long enough. *)
Ltac physics_cases points :=
  unfold analyzePhysics, gtb, MIN_MOVEMENT_TIME, VELOCITY_THRESHOLD,
    LINEARITY_THRESHOLD; cbv zeta;
  destruct (List.length points <? MIN_SAMPLES)%nat;
  [ | generalize (Math_max (finiteVelocities points)) as maxVelocity;
      generalize (measureLinearity points) as measured;
      generalize (number_of_nat (List.length points) * 0.2
                  <? number_of_nat (countDirectionChanges points))%float as turning;
      generalize (countDirectionChanges points) as changes;
      generalize (sum (finiteVelocities points)
                  / number_of_nat (List.length (finiteVelocities points)))%float
        as avgVelocity;
      intros;
      destruct (firstn 2 points) as [ | f0 [ | f1 [ | f2 more]]];
      try (destruct (timestamp f1 - timestamp f0 =? 0)%float;
           [ | destruct (timestamp f1 - timestamp f0 <? 50)%float ]);
      destruct (500 <? maxVelocity)%float;
      (destruct (0.95 <? measured)%float; [ | destruct (0.7 <? measured)%float ]);
      (destruct (calculateAccelerations (finiteVelocities points)) as [ | a accels];
       cbn [List.length Nat.ltb Nat.leb];
       [ | destruct (0.05 <? accelStdDevOf (a :: accels))%float;
           [ | destruct (0.01 <? accelStdDevOf (a :: accels))%float ] ]);
      destruct turning ].

Lemma analyzePhysics_lists (points : list MovementPoint) :
  velocities (analyzePhysics points)
  = (if (List.length points <? MIN_SAMPLES)%nat then [] else finiteVelocities points)
  /\ accelerations (analyzePhysics points)
     = (if (List.length points <? MIN_SAMPLES)%nat then []
        else calculateAccelerations (finiteVelocities points)).
Proof.
  physics_cases points; split; reflexivity.
Qed.

(** X11. The velocities the classifier reports are all finite (steps with
    a zero time gap are left out), there is at most one per step, and the
    accelerations reported are one fewer than the velocities. *)
Theorem reported_velocities (points : list MovementPoint) :
  Forall (fun v => is_finite v = true) (velocities (analyzePhysics points))
  /\ (List.length (velocities (analyzePhysics points)) <= List.length points - 1)%nat
  /\ List.length (accelerations (analyzePhysics points))
     = (List.length (velocities (analyzePhysics points)) - 1)%nat.
Proof.
  destruct (analyzePhysics_lists points) as [-> ->].
  destruct (List.length points <? MIN_SAMPLES)%nat.
  - repeat split; [constructor | cbn; lia].
  - repeat split.
    + apply finiteVelocities_finite.
    + apply finiteVelocities_length.
    + apply calculateAccelerations_length.
Qed.

(** On a human verdict the reason the token would quote is the verdict's
    own, which [btoa] does not take. *)
Lemma human_verdict_has_no_token (encode : PhysicsAnalysis -> string)
    (points : list MovementPoint) :
  isHuman (analyzePhysics points) = true ->
  Slider.generatePhysicsProof encode (analyzePhysics points) = None.
Proof.
  assert (Hcases :
            (if isHuman (analyzePhysics points)
             then Slider.generatePhysicsProof encode (analyzePhysics points)
             else None) = None).
  { unfold Slider.generatePhysicsProof.
    physics_cases points;
      match goal with
      | |- context [(0.4 <? ?c)%float] => destruct (0.4 <? c)%float
      | _ => idtac
      end;
      reflexivity. }
  intros Hhuman. rewrite Hhuman in Hcases. exact Hcases.
Qed.

(** X12. The last reason - the one the proof token quotes - always states
    the verdict, and the verdict it states is the one [isHuman] carries. *)
Theorem last_reason_is_verdict (points : list MovementPoint) :
  exists r,
    lastReason (analyzePhysics points) = Some r
    /\ stated r = Some (isHuman (analyzePhysics points)).
Proof.
  unfold lastReason.
  physics_cases points;
    match goal with
    | |- context [(0.4 <? ?c)%float] => destruct (0.4 <? c)%float
    | _ => idtac
    end;
    cbn; eexists; split; reflexivity.
Qed.

End PhysicsFacts.

Section DecisiveSignature.
Import Num JS Gravity PhysicsSpec.

(** X13. An instant start together with a straight path settles the
    verdict: when the first two samples carry the same timestamp and the
    measured linearity exceeds 0.95, the classifier never says human,
    whatever the other three checks find. *)
Theorem instant_and_linear_is_bot (points : list MovementPoint) :
  (firstGap points =? 0)%float = true ->
  (0.95 <? measureLinearity points)%float = true ->
  isHuman (analyzePhysics points) = false.
Proof.
  intros Hgap Hlinear.
  destruct points as [ | p0 [ | p1 rest]]; [reflexivity | reflexivity | ].
  cbn [firstGap] in Hgap.
  assert (Hfirst : firstn 2 (p0 :: p1 :: rest) = [p0; p1]) by reflexivity.
  revert Hlinear Hfirst. generalize (p0 :: p1 :: rest) as points.
  intros points Hlinear Hfirst.
  unfold analyzePhysics, gtb, MIN_MOVEMENT_TIME, VELOCITY_THRESHOLD,
    LINEARITY_THRESHOLD. cbv zeta.
  rewrite Hfirst, Hgap, Hlinear.
  destruct (List.length points <? MIN_SAMPLES)%nat; [reflexivity | ].
  generalize (Math_max (finiteVelocities points)) as maxVelocity.
  generalize (measureLinearity points) as measured.
  generalize (number_of_nat (List.length points) * 0.2
              <? number_of_nat (countDirectionChanges points))%float as turning.
  generalize (countDirectionChanges points) as changes.
  generalize (sum (finiteVelocities points)
              / number_of_nat (List.length (finiteVelocities points)))%float
    as avgVelocity.
  intros.
  destruct (500 <? maxVelocity)%float;
    (destruct (calculateAccelerations (finiteVelocities points)) as [ | a accels];
     cbn [List.length Nat.ltb Nat.leb];
     [ | destruct (0.05 <? accelStdDevOf (a :: accels))%float;
         [ | destruct (0.01 <? accelStdDevOf (a :: accels))%float ] ]);
    destruct turning; reflexivity.
Qed.

Lemma instant_and_linear_is_bot_witness :
  isHuman (analyzePhysics MoreSamples.instantLine) = false.
Proof.
  apply (instant_and_linear_is_bot MoreSamples.instantLine);
    vm_compute; reflexivity.
Defined.

End DecisiveSignature.

(* ================================================================== *)
(** * The slider component *)

Section SliderFacts.
Import Num JS Gravity Slider SliderRuns.

Lemma cap_step {A} (m : list A) (p : A) :
  (if (100 <? List.length (lastn 100 m ++ [p]))%nat
   then tl (lastn 100 m ++ [p]) else lastn 100 m ++ [p])
  = lastn 100 (m ++ [p]).
Proof.
  unfold lastn. rewrite !length_app, length_skipn. cbn [List.length].
  destruct (Nat.le_gt_cases (List.length m) 99) as [Hle | Hgt].
  - replace (List.length m - 100)%nat with O by lia.
    replace (List.length m + 1 - 100)%nat with O by lia.
    cbn [skipn].
    replace (100 <? List.length m - 0 + 1)%nat with false
      by (symmetry; apply Nat.ltb_ge; lia).
    reflexivity.
  - replace (100 <? List.length m - (List.length m - 100) + 1)%nat with true
      by (symmetry; apply Nat.ltb_lt; lia).
    rewrite skipn_app.
    replace (List.length m + 1 - 100 - List.length m)%nat with O by lia.
    cbn [skipn].
    replace (List.length m + 1 - 100)%nat with (1 + (List.length m - 100))%nat
      by lia.
    rewrite <- skipn_skipn.
    pose proof (length_skipn (List.length m - 100) m) as Hlen.
    destruct (skipn (List.length m - 100) m) as [ | a kept];
      [cbn in Hlen; lia | reflexivity].
Qed.

Lemma handleMouseMove_idle (rectLeft rectTop : float) (e : MouseEvent) (st : State) :
  status st = idle ->
  status (handleMouseMove (Some (rectLeft, rectTop)) e st) = idle
  /\ movementHistory (handleMouseMove (Some (rectLeft, rectTop)) e st)
     = (if (100 <? List.length (movementHistory st ++ [sampleOf rectLeft rectTop e]))%nat
        then tl (movementHistory st ++ [sampleOf rectLeft rectTop e])
        else movementHistory st ++ [sampleOf rectLeft rectTop e])
  /\ sliderValue (handleMouseMove (Some (rectLeft, rectTop)) e st)
     = Math_max [0%float;
                 Math_min [100%float;
                           ((clientX e - rectLeft) / SLIDER_WIDTH * 100)%float]].
Proof.
  intros Hidle. unfold handleMouseMove. rewrite Hidle. cbn. repeat split; assumption.
Qed.

Lemma moveAll_history (rectLeft rectTop : float) (es : list MouseEvent) :
  status (moveAll (Some (rectLeft, rectTop)) es initial) = idle
  /\ movementHistory (moveAll (Some (rectLeft, rectTop)) es initial)
     = lastn 100 (map (sampleOf rectLeft rectTop) es).
Proof.
  induction es as [ | e es [Hidle Hhist]] using rev_ind; [split; reflexivity | ].
  unfold moveAll in *. rewrite fold_left_app. cbn [fold_left].
  destruct (handleMouseMove_idle rectLeft rectTop e _ Hidle) as (Hidle' & Hhist' & _).
  split; [exact Hidle' | ].
  rewrite Hhist', Hhist, map_app. cbn [map]. apply cap_step.
Qed.

(** X14. The movement history is a window of the 100 most recent samples:
    after any run of mouse moves over a mounted, idle slider it holds the
    last 100 samples recorded, oldest first, and never more. *)
Theorem movement_history_window (rectLeft rectTop : float) (es : list MouseEvent) :
  movementHistory (moveAll (Some (rectLeft, rectTop)) es initial)
  = lastn 100 (map (sampleOf rectLeft rectTop) es)
  /\ (List.length (movementHistory (moveAll (Some (rectLeft, rectTop)) es initial))
      <= 100)%nat.
Proof.
  destruct (moveAll_history rectLeft rectTop es) as [_ Hhist].
  split; [exact Hhist | ].
  rewrite Hhist. unfold lastn. rewrite length_skipn. lia.
Qed.

(** X15. A mouse move over a mounted, idle slider leaves the slider value
    within [0,100]; only a position that is not a number yields NaN. *)
Theorem slider_value_range (rectLeft rectTop : float) (e : MouseEvent) (st : State) :
  status st = idle ->
  let percent := ((clientX e - rectLeft) / SLIDER_WIDTH * 100)%float in
  let after := sliderValue (handleMouseMove (Some (rectLeft, rectTop)) e st) in
  (is_nan percent = false ->
   (0 <=? after)%float = true /\ (after <=? 100)%float = true)
  /\ (is_nan percent = true -> is_nan after = true).
Proof.
  intros Hidle. cbv zeta.
  destruct (handleMouseMove_idle rectLeft rectTop e st Hidle) as (_ & _ & ->).
  split; intros Hnan.
  - apply clamp_range; try reflexivity. exact Hnan.
  - apply clamp_nan; try reflexivity. exact Hnan.
Qed.

Lemma slider_value_range_witness :
  (sliderValue
     (handleMouseMove (Some (100.5%float, 200%float))
        {| clientX := 1000%float; clientY := 210%float; now := 16%float |}
        initial) <=? 100)%float = true.
Proof.
  apply (slider_value_range 100.5%float 200%float
           {| clientX := 1000%float; clientY := 210%float; now := 16%float |}
           initial eq_refl).
  vm_compute. reflexivity.
Defined.

Lemma short_trace_not_human (points : list MovementPoint) :
  (List.length points < 15)%nat -> isHuman (analyzePhysics points) = false.
Proof.
  intros Hshort. unfold analyzePhysics, MIN_SAMPLES.
  apply Nat.ltb_lt in Hshort. rewrite Hshort. reflexivity.
Qed.

(** X16. Completing a slide never calls [onSuccess].  Below 90 nothing
    happens.  From 90 on, a verdict other than human sets one timer, which
    calls [onFail] and resets the slider to its idle start with an empty
    history; with fewer than 15 samples recorded that is always the
    outcome.  On a human verdict [generatePhysicsProof] throws: no callback
    is made, the status stays as it was, the message stays on "Analyzing
    physics..." and [isAnalyzing] stays set, so that the completion effect
    does not run again. *)
Theorem slide_completion (encode : PhysicsAnalysis -> string) (st : State) :
  let analysis := analyzePhysics (movementHistory st) in
  let outcome := completeAndSettle encode st in
  ((sliderValue st <? 90)%float = true -> outcome = (st, []))
  /\ ((sliderValue st <? 90)%float = false -> isHuman analysis = true ->
      outcome
      = ({| sliderValue := sliderValue st; status := status st;
            message := AnalyzingPhysics; isAnalyzing := true;
            movementHistory := movementHistory st |}, [])
      /\ completionEffect encode (fst outcome) = (fst outcome, None))
  /\ ((sliderValue st <? 90)%float = false -> isHuman analysis = false ->
      outcome
      = ({| sliderValue := 0%float; status := idle; message := SlideToVerify;
            isAnalyzing := false; movementHistory := [] |}, [onFail]))
  /\ ((sliderValue st <? 90)%float = false ->
      (List.length (movementHistory st) < 15)%nat ->
      snd outcome = [onFail])
  /\ (snd outcome = [] \/ snd outcome = [onFail])
  /\ (status st <> success -> status (fst outcome) <> success).
Proof.
  cbv zeta. unfold completeAndSettle, handleComplete.
  destruct (sliderValue st <? 90)%float.
  - split; [reflexivity | ]. split; [discriminate | ]. split; [discriminate | ].
    split; [discriminate | ]. split; [left; reflexivity | ].
    intros Hst. exact Hst.
  - destruct (isHuman (analyzePhysics (movementHistory st))) eqn:Hhuman.
    + rewrite (human_verdict_has_no_token encode _ Hhuman).
      split; [discriminate | ]. split; [ | split; [discriminate | ] ].
      * intros _ _. split; [reflexivity | ].
        unfold completionEffect. cbn [fst isAnalyzing negb].
        rewrite andb_false_r. reflexivity.
      * split; [ | split; [left; reflexivity | intros Hst; exact Hst] ].
        intros _ Hshort. rewrite (short_trace_not_human _ Hshort) in Hhuman.
        discriminate Hhuman.
    + split; [discriminate | ]. split; [discriminate | ].
      split; [reflexivity | ]. split; [reflexivity | ].
      split; [right; reflexivity | ].
      intros _. cbn. discriminate.
Qed.

Lemma slide_completion_witness :
  completeAndSettle MoreSamples.tokenOf MoreSamples.livelySlide
  = ({| sliderValue := sliderValue MoreSamples.livelySlide;
        status := status MoreSamples.livelySlide;
        message := AnalyzingPhysics; isAnalyzing := true;
        movementHistory := movementHistory MoreSamples.livelySlide |}, []).
Proof.
  apply (slide_completion MoreSamples.tokenOf MoreSamples.livelySlide).
  - vm_compute. reflexivity.
  - vm_compute. reflexivity.
Defined.

Lemma handleMouseMove_settled (rect : option (float * float)) (e : MouseEvent)
    (st : State) :
  status st <> idle -> handleMouseMove rect e st = st.
Proof.
  intros Hbusy. unfold handleMouseMove.
  destruct rect as [[rectLeft rectTop] | ]; [ | reflexivity].
  destruct (status st); [congruence | reflexivity | reflexivity].
Qed.

(** X17. Once a verdict is showing the slider takes no more input: while
    the status is not idle, no run of mouse moves, no mouse leave and no
    completion effect changes the state or sets a timer. *)
Theorem verdict_freezes_slider (encode : PhysicsAnalysis -> string)
    (rect : option (float * float)) (es : list MouseEvent) (st : State) :
  status st <> idle ->
  moveAll rect es st = st
  /\ handleMouseLeave st = st
  /\ completionEffect encode st = (st, None).
Proof.
  intros Hbusy. repeat split.
  - induction es as [ | e es IH]; [reflexivity | ].
    unfold moveAll in *. cbn [fold_left].
    rewrite (handleMouseMove_settled rect e st Hbusy). exact IH.
  - unfold handleMouseLeave. destruct (status st); [congruence | | ]; reflexivity.
  - unfold completionEffect.
    destruct (status st); [congruence | | ]; cbn [status_eqb];
      rewrite andb_false_r; reflexivity.
Qed.

Lemma verdict_freezes_slider_witness :
  moveAll (Some (100.5%float, 200%float)) MoreSamples.sweep
    (fst (handleComplete MoreSamples.tokenOf MoreSamples.hastySlide))
  = fst (handleComplete MoreSamples.tokenOf MoreSamples.hastySlide).
Proof.
  apply (verdict_freezes_slider MoreSamples.tokenOf
           (Some (100.5%float, 200%float)) MoreSamples.sweep
           (fst (handleComplete MoreSamples.tokenOf MoreSamples.hastySlide))).
  vm_compute. discriminate.
Defined.

End SliderFacts.

(* ================================================================== *)
(** * More on the login gate *)

Section GateFacts.
Import Num Backend JSString Gate Session Observe.

Lemma truthy_blank (s : string) : trim s = ""%string -> truthy (trim s) = false.
Proof. intros ->. reflexivity. Qed.

(** X18. A login with a blank username or a blank password is stopped in
    the browser: no request is sent, the step does not change, and the
    form shows "Username and password are required". *)
Theorem blank_credentials_stay_local
    (answer : Response) (telemetry : TelemetryData) (st : GateState) :
  trim (username st) = ""%string \/ trim (password st) = ""%string ->
  snd (handleLoginSubmit (recording answer) telemetry st []) = []
  /\ step (fst (handleLoginSubmit (recording answer) telemetry st [])) = step st
  /\ error (fst (handleLoginSubmit (recording answer) telemetry st []))
     = Some "Username and password are required"%string
  /\ loading (fst (handleLoginSubmit (recording answer) telemetry st [])) = false.
Proof.
  intros Hblank. unfold handleLoginSubmit.
  cbn [username password setLoading setError].
  replace (negb (truthy (trim (username st))) || negb (truthy (trim (password st))))
    with true.
  - repeat split.
  - symmetry. destruct Hblank as [H | H]; rewrite (truthy_blank _ H);
      [reflexivity | apply orb_true_r].
Qed.

Lemma blank_credentials_stay_local_witness :
  snd (handleLoginSubmit (recording NotFound) Samples.scenarioA
         (withOtp "" initialState) [])
  = [].
Proof.
  apply (blank_credentials_stay_local NotFound Samples.scenarioA
           (withOtp "" initialState)).
  left. reflexivity.
Defined.

(** X19. With credentials that are not blank, the gate sends exactly one
    request: a POST to the verify path carrying the username as user id,
    the telemetry without its capture time, and that time as the request
    timestamp.  What comes back decides the step.  A risk response puts the
    gate on SUCCESS when it requires no challenge and on CHALLENGE
    otherwise, and is kept.  An answer the client rejects (400, 404) puts
    it on ERROR with the failure message.  Any other 2xx body is taken
    unchecked: it has no [requiresChallenge], and the gate moves to
    SUCCESS. *)
Theorem login_request_and_outcome
    (answer : Response) (telemetry : TelemetryData) (st : GateState) :
  trim (username st) <> ""%string -> trim (password st) <> ""%string ->
  snd (handleLoginSubmit (recording answer) telemetry st [])
  = [ ((baseURL ++ "/verify")%string,
       VerifyJSON
         {| vr_UserID := username st;
            vr_Telemetry :=
              {| Dynamics := Dynamics telemetry; MousePath := MousePath telemetry;
                 EntropyScore := EntropyScore telemetry;
                 SessionDuration := SessionDuration telemetry; CapturedAt := 0 |};
            vr_Timestamp := CapturedAt telemetry |}) ]
  /\ userIdRef (fst (handleLoginSubmit (recording answer) telemetry st []))
     = username st
  /\ match answer with
     | OKRisk r =>
         step (fst (handleLoginSubmit (recording answer) telemetry st []))
         = (if RequiresChallenge r then CHALLENGE else SUCCESS)
         /\ riskResponse (fst (handleLoginSubmit (recording answer) telemetry st []))
            = Some r
         /\ error (fst (handleLoginSubmit (recording answer) telemetry st []))
            = None
     | BadRequest _ | NotFound =>
         step (fst (handleLoginSubmit (recording answer) telemetry st [])) = ERROR
         /\ error (fst (handleLoginSubmit (recording answer) telemetry st []))
            = Some (failureMessage answer)
         /\ riskResponse (fst (handleLoginSubmit (recording answer) telemetry st []))
            = riskResponse st
     | OKChallenge _ | OKEvents _ _ | OKHealth _ _ | OKService _ _ _ =>
         step (fst (handleLoginSubmit (recording answer) telemetry st [])) = SUCCESS
         /\ error (fst (handleLoginSubmit (recording answer) telemetry st []))
            = None
     end.
Proof.
  intros Huser Hpass. unfold handleLoginSubmit, verifyBehavior, recording.
  cbn [username password setLoading setError setRefs].
  rewrite (truthy_trim _ Huser), (truthy_trim _ Hpass). cbn [negb orb].
  destruct answer as [ r | r | evs n | s m | s v m | e | ];
    try (repeat apply conj; reflexivity).
  cbn. destruct (RequiresChallenge r); repeat apply conj; reflexivity.
Qed.

Lemma login_request_and_outcome_witness :
  step (fst (handleLoginSubmit (recording (OKHealth "online" "NeuroGate API is running"))
               Samples.scenarioA Samples.loginForm []))
  = SUCCESS.
Proof.
  apply (login_request_and_outcome (OKHealth "online" "NeuroGate API is running")
           Samples.scenarioA Samples.loginForm);
    vm_compute; discriminate.
Defined.

(** X20. A code that is blank, or shorter than four characters, is
    stopped in the browser: nothing is sent, the step does not change, and
    the form shows "OTP is required" for a blank code and "OTP must be at
    least 4 characters" for a short one. *)
Theorem invalid_code_stays_local
    (answer : Response) (now : Z) (st : GateState) :
  trim (otp st) = ""%string \/ (String.length (otp st) < 4)%nat ->
  snd (handleChallengeSubmit (recording answer) now st []) = []
  /\ step (fst (handleChallengeSubmit (recording answer) now st [])) = step st
  /\ error (fst (handleChallengeSubmit (recording answer) now st []))
     = Some (if truthy (trim (otp st)) then "OTP must be at least 4 characters"
             else "OTP is required")%string.
Proof.
  intros Hbad. unfold handleChallengeSubmit. cbn [otp setLoading setError].
  destruct (truthy (trim (otp st))) eqn:Htruthy; cbn [negb].
  - destruct Hbad as [Hblank | Hshort];
      [rewrite (truthy_blank _ Hblank) in Htruthy; discriminate | ].
    apply Nat.ltb_lt in Hshort. rewrite Hshort. repeat split.
  - repeat split.
Qed.

Lemma invalid_code_stays_local_witness :
  error (fst (handleChallengeSubmit (recording NotFound) 0
                (fst (Samples.challengedWith "123")) []))
  = Some "OTP must be at least 4 characters"%string.
Proof.
  apply (invalid_code_stays_local NotFound 0 (fst (Samples.challengedWith "123"))).
  right. vm_compute. lia.
Defined.

(** X21. For a code that passes the form's checks, the answer decides,
    and the gate ends on SUCCESS or on ERROR with a message.  The body of
    any 2xx answer is read unchecked: the gate moves to SUCCESS exactly
    when its [status] is "accepted" - for a challenge response, and just
    the same for a health or service body - and otherwise to ERROR with
    the body's [message], or "OTP verification failed" when it has none.
    A body without [status] (a risk response, an event list) gives ERROR,
    and so does an answer the client rejects, with the failure message. *)
Theorem challenge_outcome (answer : Response) (now : Z) (st : GateState) :
  (4 <= String.length (otp st))%nat -> trim (otp st) <> ""%string ->
  let after := fst (handleChallengeSubmit (recording answer) now st []) in
  (step after = SUCCESS \/ (step after = ERROR /\ error after <> None))
  /\ match answer with
     | OKChallenge r =>
         (step after = SUCCESS <-> cs_Status r = "accepted"%string)
         /\ (cs_Status r <> "accepted"%string ->
             error after = Some (if truthy (Message r) then Message r
                                 else "OTP verification failed"%string))
     | OKHealth status message =>
         (step after = SUCCESS <-> status = "accepted"%string)
         /\ (status <> "accepted"%string ->
             error after = Some (if truthy message then message
                                 else "OTP verification failed"%string))
     | OKService _ _ status =>
         (step after = SUCCESS <-> status = "accepted"%string)
         /\ (status <> "accepted"%string ->
             error after = Some "OTP verification failed"%string)
     | OKRisk _ | OKEvents _ _ =>
         step after = ERROR
         /\ error after = Some "OTP verification failed"%string
     | BadRequest _ | NotFound =>
         step after = ERROR /\ error after = Some (failureMessage answer)
     end.
Proof.
  intros Hlen Hcode. cbv zeta.
  unfold handleChallengeSubmit, submitChallenge, recording.
  cbn [otp userIdRef setLoading setError].
  rewrite (truthy_trim _ Hcode). cbn [negb].
  replace (String.length (otp st) <? 4)%nat with false
    by (symmetry; apply Nat.ltb_ge; exact Hlen).
  destruct answer as [ r | r | evs n | s m | s v m | e | ];
    cbn [resolves asChallengeResponse cs_Status Message];
    try (split; [right; split; [reflexivity | discriminate] | ];
         split; reflexivity).
  - destruct (cs_Status r =? "accepted")%string eqn:Hstatus.
    + apply String.eqb_eq in Hstatus. split; [left; reflexivity | ].
      split; [split; intros _; [exact Hstatus | reflexivity] | ].
      intros Hne. contradiction.
    + apply String.eqb_neq in Hstatus.
      split; [right; split; [reflexivity | discriminate] | ].
      split; [split; [discriminate | intros Hacc; contradiction] | ].
      intros _. reflexivity.
  - destruct (s =? "accepted")%string eqn:Hstatus.
    + apply String.eqb_eq in Hstatus. split; [left; reflexivity | ].
      split; [split; intros _; [exact Hstatus | reflexivity] | ].
      intros Hne. contradiction.
    + apply String.eqb_neq in Hstatus.
      split; [right; split; [reflexivity | discriminate] | ].
      split; [split; [discriminate | intros Hacc; contradiction] | ].
      intros _. reflexivity.
  - destruct (m =? "accepted")%string eqn:Hstatus.
    + apply String.eqb_eq in Hstatus. split; [left; reflexivity | ].
      split; [split; intros _; [exact Hstatus | reflexivity] | ].
      intros Hne. contradiction.
    + apply String.eqb_neq in Hstatus.
      split; [right; split; [reflexivity | discriminate] | ].
      split; [split; [discriminate | intros Hacc; contradiction] | ].
      intros _. reflexivity.
Qed.

Lemma challenge_outcome_witness :
  step (fst (handleChallengeSubmit (recording (OKHealth "accepted" "NeuroGate API is running"))
               1763821850000 (fst (Samples.challengedWith "123456")) []))
  = SUCCESS.
Proof.
  destruct (challenge_outcome (OKHealth "accepted" "NeuroGate API is running")
              1763821850000 (fst (Samples.challengedWith "123456")))
    as [_ [[_ Hstep] _]].
  - vm_compute. lia.
  - vm_compute. discriminate.
  - apply Hstep. reflexivity.
Defined.

(** X22. In the session as wired - the gate posting to the server's
    routes - submitting a challenge never reaches SUCCESS: a code the form
    turns away leaves the step as it is, and any other code ends on ERROR
    with "Request failed with status code 404", because the path the
    client posts to is not among the server's routes.  The log is never
    touched. *)
Theorem wired_challenge_never_succeeds
    (c : Context) (now : Z) (st : GateState) (eventLog : EventLog) :
  snd (advance c (SubmitChallenge now) (st, eventLog)) = eventLog
  /\ (step (fst (advance c (SubmitChallenge now) (st, eventLog))) = step st
      \/ (step (fst (advance c (SubmitChallenge now) (st, eventLog))) = ERROR
          /\ error (fst (advance c (SubmitChallenge now) (st, eventLog)))
             = Some "Request failed with status code 404"%string))
  /\ (step st <> SUCCESS ->
      step (fst (advance c (SubmitChallenge now) (st, eventLog))) <> SUCCESS).
Proof.
  unfold advance, handleChallengeSubmit, submitChallenge, wire, serve.
  change (lookupRoute POST (baseURL ++ "/challenge/submit")%string routes)
    with (@None Handler).
  cbn [otp userIdRef setLoading setError].
  destruct (negb (truthy (trim (otp st))));
    [ | destruct (String.length (otp st) <? 4)%nat ]; cbn;
    (split; [reflexivity | ]);
    (split; [first [left; reflexivity | right; split; reflexivity] | ]);
    first [intros H; exact H | intros _; discriminate].
Qed.

End GateFacts.

(* ================================================================== *)
(** * One user at the gate, end to end *)

Section EndToEnd.
Import Num Backend JSString Gate Session Observe UserRuns.

Lemma newest_LogEvent (e : SecurityEvent) (eventLog : EventLog) :
  maxSize eventLog = 50 -> newest (LogEvent e eventLog) = Some e.
Proof.
  intros Hcap. unfold newest. rewrite GetEvents_rev, events_LogEvent by lia.
  rewrite Hcap, skipn_app, length_app. cbn [List.length].
  replace (List.length (events eventLog) + 1 - Z.to_nat 50
           - List.length (events eventLog))%nat with O by lia.
  cbn [skipn]. rewrite rev_app_distr. reflexivity.
Qed.

Lemma truthy_nonempty (s : string) : truthy (trim s) = true -> trim s <> ""%string.
Proof. destruct (trim s); [discriminate | discriminate]. Qed.

Lemma backed_login (c : Context) (telemetry : TelemetryData)
    (s : GateState * EventLog) :
  backed s -> backed (advance c (SubmitLogin telemetry) s).
Proof.
  destruct s as [st eventLog]. intros [Hcap Hback]. cbn [fst snd] in *.
  unfold advance, handleLoginSubmit, verifyBehavior, wire, serve.
  cbn [username password setLoading setError setRefs].
  destruct (truthy (trim (username st))) eqn:Huser;
    [ destruct (truthy (trim (password st))) eqn:Hpass | ]; cbn [negb orb].
  - change (lookupRoute POST (baseURL ++ "/verify")%string routes)
      with (Some VerifyBehaviorHandler).
    unfold VerifyBehaviorHandler, bindVerify. cbn [vr_UserID vr_Telemetry].
    rewrite (trim_nonempty _ (truthy_nonempty _ Huser)).
    cbn [vr_UserID vr_Telemetry]. unfold CHALLENGE_THRESHOLD.
    destruct (CalculateRisk _ <? 70)%float eqn:Hscore; cbn.
    + split; [exact Hcap | ]. intros Hstep. discriminate.
    + split; [exact Hcap | ]. intros _.
      eexists. eexists. split; [reflexivity | ]. cbn.
      split; [reflexivity | ]. split; [exact Hscore | ].
      split; [apply newest_LogEvent; exact Hcap | ].
      cbn. repeat split.
  - split; [exact Hcap | exact Hback].
  - split; [exact Hcap | exact Hback].
Qed.

Lemma backed_challenge (c : Context) (now : Z) (s : GateState * EventLog) :
  backed s -> backed (advance c (SubmitChallenge now) s).
Proof.
  destruct s as [st eventLog]. intros [Hcap Hback]. cbn [fst snd] in *.
  unfold advance, handleChallengeSubmit, submitChallenge, wire, serve.
  change (lookupRoute POST (baseURL ++ "/challenge/submit")%string routes)
    with (@None Handler).
  cbn [otp userIdRef setLoading setError].
  destruct (negb (truthy (trim (otp st))));
    [ | destruct (String.length (otp st) <? 4)%nat ]; cbn;
    (split; [exact Hcap | ]); try exact Hback.
  intros Hstep. discriminate.
Qed.

Lemma backed_act (s : GateState * EventLog) (u : UserAction) :
  backed s -> backed (act s u).
Proof.
  destruct u as [text | text | text | c [telemetry | now | ]].
  - intros H. exact H.
  - intros H. exact H.
  - intros H. exact H.
  - apply backed_login.
  - apply backed_challenge.
  - destruct s as [st eventLog]. intros [Hcap _].
    split; [exact Hcap | ]. intros Hstep. discriminate.
Qed.

Lemma backed_run (us : list UserAction) (s : GateState * EventLog) :
  backed s -> backed (fold_left act us s).
Proof.
  revert s. induction us as [ | u us IH]; intros s Hs; [exact Hs | ].
  cbn [fold_left]. apply IH, backed_act, Hs.
Qed.

(** X23. End to end, for one user at the gate and the server as wired:
    whatever is typed and whichever handlers are triggered, in any order,
    the gate stands on SUCCESS only while it keeps a risk response that
    requires no challenge, with a score not below 70, and the newest
    event of the server's log records that very score for that user with
    status "success". *)
Theorem success_is_backed_by_the_log (us : list UserAction) :
  successBacked (run us).
Proof.
  apply (backed_run us (initialState, initialLog)).
  split; [reflexivity | ]. intros Hstep. discriminate.
Qed.

Lemma success_is_backed_by_the_log_witness :
  exists r e,
    riskResponse (fst (run Visits.visit)) = Some r
    /\ (rr_TrustScore r <? 70)%float = false
    /\ newest (snd (run Visits.visit)) = Some e
    /\ Status e = "success"%string.
Proof.
  destruct (success_is_backed_by_the_log Visits.visit)
    as (r & e & Hr & _ & Hscore & He & _ & Hstatus & _).
  - vm_compute. reflexivity.
  - exists r, e. repeat split; assumption.
Defined.

End EndToEnd.
